(** * INS1000 rover driver: a shallow embedding and its checked properties

    The development follows the three source files of the repository:
    - [driver_ins1000.py]: the frame parser, [reinit], the fixed-shape
      decoder [unpack_output_packet] and [packet_handler];
    - [message.py]: the user-configuration codec [Msg_060C_topic_0A];
    - [file_storage.py]: the CSV logger [RoverLogApp.log].

    Conventions.  A byte is a [Z] in the range 0..255 ([is_byte]); Python
    integers are [Z]; Python floats are IEEE binary64 values, the kernel's
    [float]; a Python list is a [list]; a [dict] keyed by strings is a
    [gmap string _] and an [OrderedDict] is an association list kept in
    insertion order.  A Python exception is a value of [exn]; a method
    that mutates its object and may raise returns the object as it stands
    when the call ends together with the outcome. *)

From Stdlib Require Import ZArith List String Ascii Bool Lia Floats SpecFloat.
From Stdlib Require Import DecimalString.
From stdpp Require Import base option list strings gmap.
Import ListNotations.

Local Open Scope Z_scope.

(** ** Shared Python vocabulary *)

(** The values found in packets: what [struct.unpack] produces, and text. *)
Inductive pyval : Type :=
| PInt (z : Z)
| PFloat (x : float)
| PBytes (b : list Z)
| PStr (s : string).

(** The exceptions the modelled code can raise. *)
Inductive exn : Type :=
| ValueError (msg : string)
| IndexError
| KeyError (key : pyval)
| OverflowError
| StructError
| TypeError.

(** Outcome of a call: a value or a raised exception. *)
Inductive result (A : Type) : Type :=
| Ok (a : A)
| Raise (e : exn).
Arguments Ok {A} a.
Arguments Raise {A} e.

#[global] Instance result_ret : MRet result := fun A a => Ok a.

#[global] Instance result_bind : MBind result := fun A B k r =>
  match r with
  | Ok a => k a
  | Raise e => Raise e
  end.

Definition is_byte (b : Z) : Prop := 0 <= b < 256.

Definition is_byteb (b : Z) : bool := (0 <=? b) && (b <? 256).

(** [l[i]] for a non-negative index, as an outcome. *)
Definition py_index {A : Type} (l : list A) (i : nat) : result A :=
  match l !! i with
  | Some x => Ok x
  | None => Raise IndexError
  end.

(** [l[a:b]] for [0 <= a] and [0 <= b]: Python clamps both ends. *)
Definition slice {A : Type} (l : list A) (a b : Z) : list A :=
  take (Z.to_nat (b - a)) (drop (Z.to_nat a) l).

(** [l[i]] where the code has already established that [i] is in range. *)
Definition nth_Z (l : list Z) (i : Z) : Z := nth (Z.to_nat i) l 0.

(** [n.to_bytes(2, byteorder='little', signed=False)]. *)
Definition to_bytes2_le (n : Z) : result (list Z) :=
  if (0 <=? n) && (n <? 65536) then Ok [n mod 256; n / 256] else Raise OverflowError.

(** [bytearray.append(x)]: the item has to be a byte. *)
Definition bytearray_item (x : Z) : result Z :=
  if is_byteb x then Ok x else Raise (ValueError "byte must be in range(0, 256)").

(** A list comprehension whose element expression may raise. *)
Fixpoint traverse {A B : Type} (f : A -> result B) (l : list A) : result (list B) :=
  match l with
  | [] => Ok []
  | x :: rest =>
      match f x with
      | Ok y =>
          match traverse f rest with
          | Ok ys => Ok (y :: ys)
          | Raise e => Raise e
          end
      | Raise e => Raise e
      end
  end.

(** *** Floats *)

(** [int(x)] on a float: truncation toward zero; NaN and the infinities raise. *)
Definition py_int (x : float) : result Z :=
  match Prim2SF x with
  | S754_zero _ => Ok 0
  | S754_infinity _ => Raise OverflowError
  | S754_nan => Raise (ValueError "cannot convert float NaN to integer")
  | S754_finite s m e =>
      let v := if 0 <=? e then Z.pos m * 2 ^ e else Z.pos m / 2 ^ (- e) in
      Ok (if s then - v else v)
  end.

(** [float(n)] on an integer: the nearest double, or an overflow. *)
Definition py_float (n : Z) : result float :=
  match binary_normalize 53 1024 n 0 false with
  | S754_infinity _ => Raise OverflowError
  | sf => Ok (SF2Prim sf)
  end.

(** *** [struct], little-endian and unaligned *)

Definition le_bytes (n : nat) (v : Z) : list Z :=
  map (fun i => (v / 256 ^ Z.of_nat i) mod 256) (seq 0 n).

Definition le_value (bs : list Z) : Z :=
  fold_right (fun b acc => b + 256 * acc) 0 bs.

(** The 64 bits of a double; the payload of a NaN is not tracked. *)
Definition double_bits (x : float) : Z :=
  match Prim2SF x with
  | S754_zero s => if s then 2 ^ 63 else 0
  | S754_infinity s => (if s then 2 ^ 63 else 0) + 0x7FF0000000000000
  | S754_nan => 0x7FF8000000000000
  | S754_finite s m e =>
      (if s then 2 ^ 63 else 0)
      + (if Z.pos m <? 2 ^ 52 then Z.pos m
         else (e + 1075) * 2 ^ 52 + (Z.pos m - 2 ^ 52))
  end.

(** Codes [B], [H], [I], [Q] of [n] bytes. *)
Definition pack_uint (n : nat) (v : Z) : result (list Z) :=
  if (0 <=? v) && (v <? 256 ^ Z.of_nat n) then Ok (le_bytes n v) else Raise StructError.

(** Codes [h], [i], [q] of [n] bytes, two's complement. *)
Definition pack_int (n : nat) (v : Z) : result (list Z) :=
  if (- (256 ^ Z.of_nat n / 2) <=? v) && (v <? 256 ^ Z.of_nat n / 2)
  then Ok (le_bytes n (v mod 256 ^ Z.of_nat n)) else Raise StructError.

(** Code [d]. *)
Definition pack_d (x : float) : result (list Z) := Ok (le_bytes 8 (double_bits x)).

(** [struct.pack('<{count}c', *items)] for one code [c]: the number of
    items has to be the count of the format. *)
Definition pack_items {A : Type} (count : Z) (pack1 : A -> result (list Z))
    (items : list A) : result (list Z) :=
  if Z.of_nat (length items) =? count
  then match traverse pack1 items with
       | Ok chunks => Ok (concat chunks)
       | Raise e => Raise e
       end
  else Raise StructError.

(** The double with the given 64 bits. *)
Definition double_of_bits (v : Z) : float :=
  let s := (2 ^ 63 <=? v)%Z in
  let ex := ((v / 2 ^ 52) mod 2048)%Z in
  let fr := (v mod 2 ^ 52)%Z in
  if (ex =? 2047)%Z then
    (if (fr =? 0)%Z then (if s then neg_infinity else infinity) else nan)
  else if (ex =? 0)%Z then
    match fr with
    | Z.pos m => SF2Prim (S754_finite s m (-1074))
    | _ => SF2Prim (S754_zero s)
    end
  else
    match (fr + 2 ^ 52)%Z with
    | Z.pos m => SF2Prim (S754_finite s m (ex - 1075))
    | _ => nan
    end.

(** The value, as a double, of the single with the given 32 bits. *)
Definition single_of_bits (v : Z) : float :=
  let s := (2 ^ 31 <=? v)%Z in
  let ex := ((v / 2 ^ 23) mod 256)%Z in
  let fr := (v mod 2 ^ 23)%Z in
  if (ex =? 255)%Z then
    (if (fr =? 0)%Z then (if s then neg_infinity else infinity) else nan)
  else if (ex =? 0)%Z then
    match fr with
    | Z.pos m => SF2Prim (S754_finite s m (-149))
    | _ => SF2Prim (S754_zero s)
    end
  else
    match (fr + 2 ^ 23)%Z with
    | Z.pos m => SF2Prim (S754_finite s m (ex - 150))
    | _ => nan
    end.

(** Two's complement reading of an [n]-byte unsigned value. *)
Definition to_signed (n : nat) (v : Z) : Z :=
  if v <? 256 ^ Z.of_nat n / 2 then v else v - 256 ^ Z.of_nat n.

(** *** Ordered dictionaries *)

(** A [collections.OrderedDict] with string keys, in insertion order. *)
Definition odict : Type := list (string * pyval).

Fixpoint odict_get (d : odict) (k : string) : option pyval :=
  match d with
  | [] => None
  | (k', v) :: rest => if String.eqb k' k then Some v else odict_get rest k
  end.

(** [d[k] = v]: a known key keeps its place. *)
Fixpoint odict_set (d : odict) (k : string) (v : pyval) : odict :=
  match d with
  | [] => [(k, v)]
  | (k', v') :: rest =>
      if String.eqb k' k then (k', v) :: rest else (k', v') :: odict_set rest k v
  end.

(** [collections.OrderedDict(pairs)]. *)
Definition odict_of_pairs (pairs : list (string * pyval)) : odict :=
  fold_left (fun d kv => odict_set d (fst kv) (snd kv)) pairs [].

(** [d[k]] as an outcome. *)
Definition odict_item (d : odict) (k : string) : result pyval :=
  match odict_get d k with
  | Some v => Ok v
  | None => Raise (KeyError (PStr k))
  end.

(** ** The frame parser ([RoverDriver.parser]) *)

Module Parser.

Definition HEADER_05 : list Z := [0xAF; 0x20; 0x05].
Definition HEADER_06 : list Z := [0xAF; 0x20; 0x06].
Definition HEADER_07 : list Z := [0xAF; 0x20; 0x07].
Definition PAYLOAD_LEN_IDX : Z := 4.
Definition MAX_FRAME_LIMIT : Z := 500.

(** The parser's local variables. *)
Record parser_state : Type := mk_parser_state {
  sync_pattern : list Z;
  find_header : bool;
  frame : list Z;
  payload_len : Z
}.

(** State on entry of the loop: [deque(3*[0], 3)], no header, empty frame. *)
Definition parser_init : parser_state :=
  mk_parser_state [0; 0; 0] false [] 0.

(** [collections.deque.append] on a deque of bounded length. *)
Definition deque_append (maxlen : nat) (dq : list Z) (d : Z) : list Z :=
  let l := dq ++ [d] in drop (length l - maxlen)%nat l.

(** [operator.eq] on two lists of integers. *)
Definition list_eqb (a b : list Z) : bool := bool_decide (a = b).

Section WithChecksum.

(** [utility.check_sum] is not among the repository files at hand: the
    parser is verified for every function from payload bytes to a pair. *)
Variable check_sum : list Z -> Z * Z.

(** One iteration of the [while True] loop that found a byte in the queue:
    the new locals and the frame handed to [parse_frame], if any. *)
Definition parser_step (s : parser_state) (data : Z)
  : parser_state * option (list Z) :=
  if find_header s then
    let frame' := frame s ++ [data] in
    let n := Z.of_nat (length frame') in
    let '(fh, pl, out) :=
      if PAYLOAD_LEN_IDX + 2 =? n then
        (true,
         256 * nth_Z frame' (PAYLOAD_LEN_IDX + 1) + nth_Z frame' PAYLOAD_LEN_IDX,
         None)
      else if 6 + payload_len s + 2 =? n then
        let result :=
          check_sum (slice frame' (PAYLOAD_LEN_IDX + 2)
                                  (PAYLOAD_LEN_IDX + payload_len s + 2)) in
        if (fst result =? nth_Z frame' (n - 2)) && (snd result =? nth_Z frame' (n - 1))
        then (false, payload_len s, Some frame')
        else (false, payload_len s, None)
      else (true, payload_len s, None) in
    if (pl >? MAX_FRAME_LIMIT) || (n >? MAX_FRAME_LIMIT)
    then (mk_parser_state (sync_pattern s) false frame' 0, out)
    else (mk_parser_state (sync_pattern s) fh frame' pl, out)
  else
    let sp := deque_append 3 (sync_pattern s) data in
    if list_eqb sp HEADER_05 then
      (mk_parser_state sp true HEADER_05 (payload_len s), None)
    else if list_eqb sp HEADER_06 then
      (mk_parser_state sp true HEADER_06 (payload_len s), None)
    else if list_eqb sp HEADER_07 then
      (mk_parser_state sp true HEADER_07 (payload_len s), None)
    else (mk_parser_state sp false (frame s) (payload_len s), None).

(** The bytes of the queue are consumed in FIFO order; the run over a
    stream collects the frames dispatched to [parse_frame], in order. *)
Fixpoint parser_run (s : parser_state) (stream : list Z)
  : parser_state * list (list Z) :=
  match stream with
  | [] => (s, [])
  | d :: rest =>
      let '(s1, out) := parser_step s d in
      let '(s2, outs) := parser_run s1 rest in
      (s2, match out with Some f => f :: outs | None => outs end)
  end.

(** A frame as the wire format builds it around a payload. *)
Definition frame_bytes (header : list Z) (sub_id : Z) (payload : list Z)
  (trailer : Z * Z) : list Z :=
  header ++ [sub_id]
    ++ [Z.of_nat (length payload) mod 256; Z.of_nat (length payload) / 256]
    ++ payload ++ [fst trailer; snd trailer].

Definition valid_frame (header : list Z) (sub_id : Z) (payload : list Z) : list Z :=
  frame_bytes header sub_id payload (check_sum payload).

Definition is_header (h : list Z) : Prop :=
  h = HEADER_05 \/ h = HEADER_06 \/ h = HEADER_07.


(** *** Running the parser *)

Lemma parser_run_app (s : parser_state) (a b : list Z) :
  parser_run s (a ++ b) =
  let '(s1, o1) := parser_run s a in
  let '(s2, o2) := parser_run s1 b in
  (s2, o1 ++ o2).
Proof.
  revert s; induction a as [|d a IH]; intros s; simpl.
  - destruct (parser_run s b); reflexivity.
  - destruct (parser_step s d) as [s1 out]. rewrite IH.
    destruct (parser_run s1 a) as [s2 o1].
    destruct (parser_run s2 b) as [s3 o2].
    destruct out; reflexivity.
Qed.

Lemma parser_run_snoc (s : parser_state) (a : list Z) (d : Z) :
  parser_run s (a ++ [d]) =
  let '(s1, o1) := parser_run s a in
  let '(s2, out) := parser_step s1 d in
  (s2, o1 ++ match out with Some f => [f] | None => [] end).
Proof.
  rewrite parser_run_app. destruct (parser_run s a) as [s1 o1]. simpl.
  destruct (parser_step s1 d) as [s2 [f|]]; reflexivity.
Qed.

(** A byte that neither captures the length nor completes the frame, below
    the limit: it is appended and nothing else changes. *)
Lemma step_active_plain (s : parser_state) (d : Z) :
  find_header s = true ->
  Z.of_nat (length (frame s)) + 1 <> 6 ->
  6 + payload_len s + 2 <> Z.of_nat (length (frame s)) + 1 ->
  payload_len s <= MAX_FRAME_LIMIT ->
  Z.of_nat (length (frame s)) + 1 <= MAX_FRAME_LIMIT ->
  parser_step s d =
  (mk_parser_state (sync_pattern s) true (frame s ++ [d]) (payload_len s), None).
Proof.
  intros Hfh H6 Hc Hpl Hn. unfold parser_step. rewrite Hfh.
  rewrite length_app. simpl length. unfold PAYLOAD_LEN_IDX, MAX_FRAME_LIMIT in *.
  destruct (Z.eqb_spec (4 + 2) (Z.of_nat (length (frame s) + 1))); [lia|].
  destruct (Z.eqb_spec (6 + payload_len s + 2) (Z.of_nat (length (frame s) + 1))); [lia|].
  destruct (Z.gtb_spec (payload_len s) 500); [lia|].
  destruct (Z.gtb_spec (Z.of_nat (length (frame s) + 1)) 500); [lia|].
  reflexivity.
Qed.

Lemma run_active_plain (bs : list Z) : forall s : parser_state,
  find_header s = true ->
  (6 <= length (frame s) \/ length (frame s) + length bs < 6)%nat ->
  Z.of_nat (length (frame s) + length bs) < 6 + payload_len s + 2 ->
  payload_len s <= MAX_FRAME_LIMIT ->
  Z.of_nat (length (frame s) + length bs) <= MAX_FRAME_LIMIT ->
  parser_run s bs =
  (mk_parser_state (sync_pattern s) true (frame s ++ bs) (payload_len s), []).
Proof.
  induction bs as [|d bs IH]; intros s Hfh H6 Hc Hpl Hn.
  - simpl. rewrite app_nil_r. destruct s; simpl in *. subst. reflexivity.
  - simpl length in *. simpl parser_run.
    rewrite step_active_plain by (try assumption; lia).
    rewrite IH; simpl; rewrite ?length_app; simpl; try assumption; try lia.
    rewrite <- app_assoc. reflexivity.
Qed.

(** The sixth byte of a frame captures the payload length. *)
Lemma step_capture (s : parser_state) (d : Z) :
  find_header s = true ->
  length (frame s) = 5%nat ->
  parser_step s d =
  let pl := 256 * d + nth_Z (frame s) 4 in
  if pl >? MAX_FRAME_LIMIT
  then (mk_parser_state (sync_pattern s) false (frame s ++ [d]) 0, None)
  else (mk_parser_state (sync_pattern s) true (frame s ++ [d]) pl, None).
Proof.
  intros Hfh H5. unfold parser_step. rewrite Hfh.
  rewrite length_app, H5. simpl length. change (Z.of_nat (5 + 1)) with 6.
  change (PAYLOAD_LEN_IDX + 2 =? 6) with true.
  assert (Hhi : nth_Z (frame s ++ [d]) (PAYLOAD_LEN_IDX + 1) = d).
  { unfold nth_Z. change (Z.to_nat (PAYLOAD_LEN_IDX + 1)) with 5%nat.
    rewrite <- H5. rewrite nth_middle. reflexivity. }
  assert (Hlo : nth_Z (frame s ++ [d]) PAYLOAD_LEN_IDX = nth_Z (frame s) 4).
  { unfold nth_Z. change (Z.to_nat PAYLOAD_LEN_IDX) with 4%nat.
    change (Z.to_nat 4) with 4%nat. apply app_nth1. lia. }
  rewrite Hhi, Hlo. cbv beta iota zeta.
  change (6 >? MAX_FRAME_LIMIT) with false. rewrite orb_false_r.
  destruct (256 * d + nth_Z (frame s) 4 >? MAX_FRAME_LIMIT); reflexivity.
Qed.

(** The byte that brings the frame to [6 + payload_len + 2] bytes completes
    it: the checksum decides the dispatch, and header search resumes. *)
Lemma step_complete (s : parser_state) (d : Z) :
  find_header s = true ->
  0 <= payload_len s <= MAX_FRAME_LIMIT ->
  Z.of_nat (length (frame s)) + 1 = 6 + payload_len s + 2 ->
  parser_step s d =
  let frame' := frame s ++ [d] in
  let result := check_sum (slice frame' 6 (6 + payload_len s)) in
  (mk_parser_state (sync_pattern s) false frame'
     (if Z.of_nat (length frame') >? MAX_FRAME_LIMIT then 0 else payload_len s),
   if (fst result =? nth_Z frame' (Z.of_nat (length frame') - 2))
      && (snd result =? nth_Z frame' (Z.of_nat (length frame') - 1))
   then Some frame' else None).
Proof.
  intros Hfh Hpl Hn. unfold parser_step. rewrite Hfh. cbv zeta.
  assert (Hlen : Z.of_nat (length (frame s ++ [d])) = 6 + payload_len s + 2).
  { rewrite length_app. simpl length. lia. }
  rewrite Hlen. unfold PAYLOAD_LEN_IDX, MAX_FRAME_LIMIT in *.
  destruct (Z.eqb_spec (4 + 2) (6 + payload_len s + 2)); [lia|].
  rewrite Z.eqb_refl.
  replace (4 + payload_len s + 2) with (6 + payload_len s) by lia.
  change (4 + 2) with 6.
  match goal with
  | |- context [if ?c then (false, _, Some _) else _] => destruct c
  end; cbv beta iota zeta;
    (destruct (Z.gtb_spec (payload_len s) 500); [lia|]); rewrite orb_false_l;
    destruct (6 + payload_len s + 2 >? 500); reflexivity.
Qed.

(** *** Header search *)

Lemma deque_append_full (a b c d : Z) : deque_append 3 [a; b; c] d = [b; c; d].
Proof. reflexivity. Qed.

Lemma step_search_miss (a b c : Z) (fr : list Z) (pl d : Z) :
  d <> 5 -> d <> 6 -> d <> 7 ->
  parser_step (mk_parser_state [a; b; c] false fr pl) d =
  (mk_parser_state [b; c; d] false fr pl, None).
Proof.
  intros H5 H6 H7. unfold parser_step. simpl find_header. cbv iota.
  simpl sync_pattern. rewrite deque_append_full.
  unfold list_eqb, HEADER_05, HEADER_06, HEADER_07.
  repeat (case_bool_decide; [congruence|]). reflexivity.
Qed.

Lemma step_search_hit (a : Z) (fr : list Z) (pl d : Z) :
  is_header [0xAF; 0x20; d] ->
  parser_step (mk_parser_state [a; 0xAF; 0x20] false fr pl) d =
  (mk_parser_state [0xAF; 0x20; d] true [0xAF; 0x20; d] pl, None).
Proof.
  intros Hh. unfold parser_step. simpl find_header. cbv iota.
  simpl sync_pattern. rewrite deque_append_full.
  unfold is_header, list_eqb, HEADER_05, HEADER_06, HEADER_07 in *.
  destruct Hh as [H | [H | H]]; injection H as ->;
    repeat (case_bool_decide; try congruence); reflexivity.
Qed.

Lemma run_search_header (s : parser_state) (h : list Z) :
  find_header s = false ->
  length (sync_pattern s) = 3%nat ->
  is_header h ->
  parser_run s h = (mk_parser_state h true h (payload_len s), []).
Proof.
  destruct s as [sp fh fr pl]; simpl. intros -> Hsp Hh.
  destruct sp as [|a [|b [|c [|? ?]]]]; try discriminate Hsp.
  assert (exists d, h = [0xAF; 0x20; d]) as [d ->].
  { destruct Hh as [-> | [-> | ->]]; eexists; reflexivity. }
  unfold parser_run.
  rewrite step_search_miss by lia.
  rewrite step_search_miss by lia.
  rewrite step_search_hit by assumption. reflexivity.
Qed.

(** *** The loop invariant *)



Lemma header_bytes (h : list Z) : is_header h -> Forall is_byte h /\ length h = 3%nat.
Proof.
  intros [-> | [-> | ->]]; (split; [|reflexivity]);
    repeat constructor; unfold is_byte; lia.
Qed.




(** *** A whole frame, fed while the parser searches for a header *)

Lemma le16_decode (p : Z) : 256 * (p / 256) + p mod 256 = p.
Proof. symmetry. apply Z.div_mod. lia. Qed.

Lemma slice_payload (pre payload post : list Z) (a b : Z) :
  a = Z.of_nat (length pre) ->
  b = a + Z.of_nat (length payload) ->
  slice (pre ++ payload ++ post) a b = payload.
Proof.
  intros -> ->. unfold slice.
  rewrite Nat2Z.id.
  replace (Z.to_nat (Z.of_nat (length pre) + Z.of_nat (length payload) - Z.of_nat (length pre)))
    with (length payload) by lia.
  rewrite drop_app_length. apply take_app_length.
Qed.

Lemma nth_Z_after (pre : list Z) (x : Z) (post : list Z) (i : Z) :
  i = Z.of_nat (length pre) -> nth_Z (pre ++ x :: post) i = x.
Proof. intros ->. unfold nth_Z. rewrite Nat2Z.id. apply nth_middle. Qed.

(** The parser is looking for a header, with locals as the loop keeps them. *)
Definition searching (s : parser_state) : Prop :=
  find_header s = false /\ length (sync_pattern s) = 3%nat
  /\ 0 <= payload_len s <= MAX_FRAME_LIMIT.

Ltac side_conditions H :=
  simpl; rewrite ?length_app, ?H; simpl; unfold MAX_FRAME_LIMIT in *;
  first [reflexivity | lia].

Lemma run_frame (s : parser_state) (h : list Z) (sub : Z) (payload : list Z)
    (tr : Z * Z) :
  searching s ->
  is_header h ->
  (length payload <= 493)%nat ->
  parser_run s (frame_bytes h sub payload tr) =
  (mk_parser_state h false (frame_bytes h sub payload tr)
     (if 8 + Z.of_nat (length payload) >? MAX_FRAME_LIMIT
      then 0 else Z.of_nat (length payload)),
   if (fst (check_sum payload) =? fst tr) && (snd (check_sum payload) =? snd tr)
   then [frame_bytes h sub payload tr] else []).
Proof.
  intros (Hfh & Hsp & Hpl) Hh Hp.
  set (p := Z.of_nat (length payload)).
  destruct (header_bytes h Hh) as [_ Hh3].
  unfold frame_bytes. fold p.
  replace (h ++ [sub] ++ [p mod 256; p / 256] ++ payload ++ [fst tr; snd tr])
    with ((((h ++ [sub; p mod 256]) ++ [p / 256]) ++ payload ++ [fst tr]) ++ [snd tr])
    by (rewrite <- !app_assoc; reflexivity).
  rewrite parser_run_snoc, parser_run_app, parser_run_snoc, parser_run_app.
  rewrite (run_search_header s h Hfh Hsp Hh).
  assert (Hlo : nth_Z (h ++ [sub; p mod 256]) 4 = p mod 256).
  { change (h ++ [sub; p mod 256]) with (h ++ [sub] ++ [p mod 256]).
    rewrite app_assoc. apply nth_Z_after. rewrite length_app, Hh3. reflexivity. }
  set (pre := (h ++ [sub; p mod 256]) ++ [p / 256]).
  assert (Hpre : length pre = 6%nat).
  { unfold pre. rewrite !length_app, Hh3. reflexivity. }
  assert (Hlen : Z.of_nat (length ((pre ++ payload ++ [fst tr]) ++ [snd tr])) = 8 + p).
  { rewrite !length_app, Hpre. simpl. lia. }
  rewrite run_active_plain by side_conditions Hh3.
  rewrite step_capture by side_conditions Hh3.
  simpl frame. simpl sync_pattern. simpl payload_len.
  rewrite Hlo, le16_decode. cbv zeta. unfold MAX_FRAME_LIMIT.
  destruct (Z.gtb_spec p 500); [lia|]. fold pre.
  rewrite run_active_plain by side_conditions Hpre.
  rewrite step_complete by side_conditions Hpre.
  simpl frame. simpl sync_pattern. simpl payload_len. cbv zeta.
  rewrite Hlen. unfold MAX_FRAME_LIMIT.
  replace ((pre ++ payload ++ [fst tr]) ++ [snd tr])
    with (pre ++ payload ++ [fst tr; snd tr])
    by (rewrite <- !app_assoc; reflexivity).
  rewrite (slice_payload pre payload [fst tr; snd tr]) by (rewrite ?Hpre; lia).
  replace (nth_Z (pre ++ payload ++ [fst tr; snd tr]) (8 + p - 2)) with (fst tr).
  2:{ replace (pre ++ payload ++ [fst tr; snd tr])
        with ((pre ++ payload) ++ fst tr :: [snd tr])
        by (rewrite <- !app_assoc; reflexivity).
      symmetry. apply nth_Z_after. rewrite !length_app, Hpre. lia. }
  replace (nth_Z (pre ++ payload ++ [fst tr; snd tr]) (8 + p - 1)) with (snd tr).
  2:{ replace (pre ++ payload ++ [fst tr; snd tr])
        with (((pre ++ payload) ++ [fst tr]) ++ snd tr :: [])
        by (rewrite <- !app_assoc; reflexivity).
      symmetry. apply nth_Z_after. rewrite !length_app, Hpre. simpl. lia. }
  destruct ((fst (check_sum payload) =? fst tr) && (snd (check_sum payload) =? snd tr));
    reflexivity.
Qed.

Lemma searching_init : searching parser_init.
Proof. unfold searching, MAX_FRAME_LIMIT; simpl; repeat split; lia. Qed.










End WithChecksum.

(** A two-byte checksum to run the parser on concrete streams (running
    sums modulo 256); the results of the section hold for any other. *)
Definition sample_check_sum (payload : list Z) : Z * Z :=
  fold_left (fun ab d => ((fst ab + d) mod 256, (snd ab + (fst ab + d)) mod 256))
            payload (0, 0).




(** The boundary of the limit: a frame of 501 bytes (payload of 493) is
    complete at the byte that crosses the limit, and is dispatched. *)
Example frame_of_501_bytes_dispatched :
  snd (parser_run sample_check_sum parser_init
         (valid_frame sample_check_sum HEADER_05 0 (repeat 0 493)))
  = [valid_frame sample_check_sum HEADER_05 0 (repeat 0 493)].
Proof. vm_compute. reflexivity. Qed.

End Parser.

(** ** The user-configuration codec ([message.Msg_060C_topic_0A]) *)

Module UserConfig.

#[local] Set Warnings "-inexact-float".

(** The attributes of the object that the methods below read or write.
    Lever arms are kept in raw integer units, one row of three per
    antenna. *)
Record Msg_060C_topic_0A : Type := mk_msg {
  topic : Z;
  indicators : Z;
  flags : Z;
  ICD_num : Z;
  min_vel : Z;
  max_unaided_time : Z;
  max_output_rate : Z;
  imu_rotation_matrix : list float;
  output_position_offset : list Z;
  smooth_mode : Z;
  GNSS_lever_arm_center : list (list Z);
  GNSS_lever_arm_housing_mark : list (list Z);
  internal_lever_arm : list Z;
  GNSS_lever_arm_uncertainty : list Z;
  ICD_configuration : list Z;
  DMI_id : Z;
  DMI_scale_factor : float;
  DMI_lever_arm : list Z;
  DMI_lever_arm_uncertainty : Z;
  DMI_options : Z;
  extended_version_flag : bool;
  antenna_num : Z;
  DMI_exists : Z;
  flags_init_heading_from_GNSS_vel : bool;
  flags_leverarm_from_imu_center : bool;
  msg_060D_cmd : list Z
}.

(** Assignments to single attributes. *)
Definition with_flags (m : Msg_060C_topic_0A) (v : Z) : Msg_060C_topic_0A :=
  mk_msg
    (topic m)
    (indicators m)
    v
    (ICD_num m)
    (min_vel m)
    (max_unaided_time m)
    (max_output_rate m)
    (imu_rotation_matrix m)
    (output_position_offset m)
    (smooth_mode m)
    (GNSS_lever_arm_center m)
    (GNSS_lever_arm_housing_mark m)
    (internal_lever_arm m)
    (GNSS_lever_arm_uncertainty m)
    (ICD_configuration m)
    (DMI_id m)
    (DMI_scale_factor m)
    (DMI_lever_arm m)
    (DMI_lever_arm_uncertainty m)
    (DMI_options m)
    (extended_version_flag m)
    (antenna_num m)
    (DMI_exists m)
    (flags_init_heading_from_GNSS_vel m)
    (flags_leverarm_from_imu_center m)
    (msg_060D_cmd m).

Definition with_imu_rotation_matrix (m : Msg_060C_topic_0A) (v : list float) : Msg_060C_topic_0A :=
  mk_msg
    (topic m)
    (indicators m)
    (flags m)
    (ICD_num m)
    (min_vel m)
    (max_unaided_time m)
    (max_output_rate m)
    v
    (output_position_offset m)
    (smooth_mode m)
    (GNSS_lever_arm_center m)
    (GNSS_lever_arm_housing_mark m)
    (internal_lever_arm m)
    (GNSS_lever_arm_uncertainty m)
    (ICD_configuration m)
    (DMI_id m)
    (DMI_scale_factor m)
    (DMI_lever_arm m)
    (DMI_lever_arm_uncertainty m)
    (DMI_options m)
    (extended_version_flag m)
    (antenna_num m)
    (DMI_exists m)
    (flags_init_heading_from_GNSS_vel m)
    (flags_leverarm_from_imu_center m)
    (msg_060D_cmd m).

Definition with_center (m : Msg_060C_topic_0A) (v : list (list Z)) : Msg_060C_topic_0A :=
  mk_msg
    (topic m)
    (indicators m)
    (flags m)
    (ICD_num m)
    (min_vel m)
    (max_unaided_time m)
    (max_output_rate m)
    (imu_rotation_matrix m)
    (output_position_offset m)
    (smooth_mode m)
    v
    (GNSS_lever_arm_housing_mark m)
    (internal_lever_arm m)
    (GNSS_lever_arm_uncertainty m)
    (ICD_configuration m)
    (DMI_id m)
    (DMI_scale_factor m)
    (DMI_lever_arm m)
    (DMI_lever_arm_uncertainty m)
    (DMI_options m)
    (extended_version_flag m)
    (antenna_num m)
    (DMI_exists m)
    (flags_init_heading_from_GNSS_vel m)
    (flags_leverarm_from_imu_center m)
    (msg_060D_cmd m).

Definition with_housing_mark (m : Msg_060C_topic_0A) (v : list (list Z)) : Msg_060C_topic_0A :=
  mk_msg
    (topic m)
    (indicators m)
    (flags m)
    (ICD_num m)
    (min_vel m)
    (max_unaided_time m)
    (max_output_rate m)
    (imu_rotation_matrix m)
    (output_position_offset m)
    (smooth_mode m)
    (GNSS_lever_arm_center m)
    v
    (internal_lever_arm m)
    (GNSS_lever_arm_uncertainty m)
    (ICD_configuration m)
    (DMI_id m)
    (DMI_scale_factor m)
    (DMI_lever_arm m)
    (DMI_lever_arm_uncertainty m)
    (DMI_options m)
    (extended_version_flag m)
    (antenna_num m)
    (DMI_exists m)
    (flags_init_heading_from_GNSS_vel m)
    (flags_leverarm_from_imu_center m)
    (msg_060D_cmd m).

Definition with_internal_lever_arm (m : Msg_060C_topic_0A) (v : list Z) : Msg_060C_topic_0A :=
  mk_msg
    (topic m)
    (indicators m)
    (flags m)
    (ICD_num m)
    (min_vel m)
    (max_unaided_time m)
    (max_output_rate m)
    (imu_rotation_matrix m)
    (output_position_offset m)
    (smooth_mode m)
    (GNSS_lever_arm_center m)
    (GNSS_lever_arm_housing_mark m)
    v
    (GNSS_lever_arm_uncertainty m)
    (ICD_configuration m)
    (DMI_id m)
    (DMI_scale_factor m)
    (DMI_lever_arm m)
    (DMI_lever_arm_uncertainty m)
    (DMI_options m)
    (extended_version_flag m)
    (antenna_num m)
    (DMI_exists m)
    (flags_init_heading_from_GNSS_vel m)
    (flags_leverarm_from_imu_center m)
    (msg_060D_cmd m).

Definition with_msg_060D_cmd (m : Msg_060C_topic_0A) (v : list Z) : Msg_060C_topic_0A :=
  mk_msg
    (topic m)
    (indicators m)
    (flags m)
    (ICD_num m)
    (min_vel m)
    (max_unaided_time m)
    (max_output_rate m)
    (imu_rotation_matrix m)
    (output_position_offset m)
    (smooth_mode m)
    (GNSS_lever_arm_center m)
    (GNSS_lever_arm_housing_mark m)
    (internal_lever_arm m)
    (GNSS_lever_arm_uncertainty m)
    (ICD_configuration m)
    (DMI_id m)
    (DMI_scale_factor m)
    (DMI_lever_arm m)
    (DMI_lever_arm_uncertainty m)
    (DMI_options m)
    (extended_version_flag m)
    (antenna_num m)
    (DMI_exists m)
    (flags_init_heading_from_GNSS_vel m)
    (flags_leverarm_from_imu_center m)
    v.

Definition SCALING_LEVER_ARM : float := 1.0e-4%float.
Definition MASK_FLAGS_LEVERARM_FROM_IMU_CENTER : Z := 4.
Definition FRAME_HEADER : list Z := [0xAF; 0x20; 0x06; 0x0D].
Definition PAYLOAD_LEN_IDX : nat := 4.

Definition size_matrix_msg : string := "Size of IMU Rotation Matrix is incorrect!".
Definition size_lever_arm_msg : string := "Size of GNSS Lever arm is incorrect!".

(** *** Setters and getters *)

Definition set_imu_rotation_matrix (m : Msg_060C_topic_0A) (matrix : list float)
  : Msg_060C_topic_0A * result unit :=
  if negb (Nat.eqb (length matrix) 9) then (m, Raise (ValueError size_matrix_msg))
  else (with_imu_rotation_matrix m matrix, Ok tt).

(** [int(p/self.SCALING_LEVER_ARM)]. *)
Definition to_raw (p : float) : result Z := py_int (p / SCALING_LEVER_ARM)%float.

(** [p*self.SCALING_LEVER_ARM] on a raw integer. *)
Definition to_metres (p : Z) : result float :=
  match py_float p with
  | Ok x => Ok (x * SCALING_LEVER_ARM)%float
  | Raise e => Raise e
  end.

(** [range(self.antenna_num)]. *)
Definition antennas (m : Msg_060C_topic_0A) : list nat := seq 0 (Z.to_nat (antenna_num m)).

(** [[[int(p/S) for p in lever_arm[an]] for an in range(antenna_num)]]. *)
Definition scale_rows (ans : list nat) (lever_arm : list (list float))
  : result (list (list Z)) :=
  traverse (fun an => match py_index lever_arm an with
                      | Ok row => traverse to_raw row
                      | Raise e => Raise e
                      end) ans.

(** [[src_row[i] op internal[i] for i in range(3)]]. *)
Definition derive_row (op : Z -> Z -> Z) (src_row internal : list Z) : result (list Z) :=
  traverse (fun i => match py_index src_row i with
                     | Ok a => match py_index internal i with
                               | Ok b => Ok (op a b)
                               | Raise e => Raise e
                               end
                     | Raise e => Raise e
                     end) [0; 1; 2]%nat.

(** [for an in range(antenna_num): dst.append([src[an][i] op internal[i] ...])]:
    the rows appended before an exception stay in [dst]. *)
Fixpoint append_derived (op : Z -> Z -> Z) (src : list (list Z)) (internal : list Z)
    (ans : list nat) (dst : list (list Z)) : list (list Z) * result unit :=
  match ans with
  | [] => (dst, Ok tt)
  | an :: rest =>
      match py_index src an with
      | Ok src_row =>
          match derive_row op src_row internal with
          | Ok row => append_derived op src internal rest (dst ++ [row])
          | Raise e => (dst, Raise e)
          end
      | Raise e => (dst, Raise e)
      end
  end.

Definition set_GNSS_lever_arm_center (m : Msg_060C_topic_0A)
    (lever_arm : list (list float)) : Msg_060C_topic_0A * result unit :=
  if negb (Z.of_nat (length lever_arm) =? antenna_num m)
  then (m, Raise (ValueError size_lever_arm_msg))
  else
    match py_index lever_arm 0 with
    | Raise e => (m, Raise e)
    | Ok first =>
        if negb (Nat.eqb (length first) 3)
        then (m, Raise (ValueError size_lever_arm_msg))
        else
          match scale_rows (antennas m) lever_arm with
          | Raise e => (m, Raise e)
          | Ok center =>
              let m1 := with_center m center in
              let '(housing, r) :=
                append_derived Z.sub (GNSS_lever_arm_center m1)
                  (internal_lever_arm m1) (antennas m1) [] in
              (with_housing_mark m1 housing, r)
          end
    end.

Definition set_GNSS_lever_arm_housing_mark (m : Msg_060C_topic_0A)
    (lever_arm : list (list float)) : Msg_060C_topic_0A * result unit :=
  if negb (Z.of_nat (length lever_arm) =? antenna_num m)
  then (m, Raise (ValueError size_lever_arm_msg))
  else
    match py_index lever_arm 0 with
    | Raise e => (m, Raise e)
    | Ok first =>
        if negb (Nat.eqb (length first) 3)
        then (m, Raise (ValueError size_lever_arm_msg))
        else
          match scale_rows (antennas m) lever_arm with
          | Raise e => (m, Raise e)
          | Ok housing =>
              let m1 := with_housing_mark m housing in
              let '(center, r) :=
                append_derived Z.add (GNSS_lever_arm_housing_mark m1)
                  (internal_lever_arm m1) (antennas m1) [] in
              (with_center m1 center, r)
          end
    end.

Definition update_GNSS_lever_arm_by_internal_lever_arm (m : Msg_060C_topic_0A)
    (internal : list float) : Msg_060C_topic_0A * result unit :=
  match traverse to_raw internal with
  | Raise e => (m, Raise e)
  | Ok raw =>
      let m1 := with_internal_lever_arm m raw in
      if flags_leverarm_from_imu_center m1 then
        let '(housing, r) :=
          append_derived Z.sub (GNSS_lever_arm_center m1) (internal_lever_arm m1)
            (antennas m1) (GNSS_lever_arm_housing_mark m1) in
        (with_housing_mark m1 housing, r)
      else
        let '(center, r) :=
          append_derived Z.add (GNSS_lever_arm_housing_mark m1) (internal_lever_arm m1)
            (antennas m1) (GNSS_lever_arm_center m1) in
        (with_center m1 center, r)
  end.

(** [[[p*S for p in rows[an]] for an in range(antenna_num)]]. *)
Definition scaled_rows (ans : list nat) (rows : list (list Z))
  : result (list (list float)) :=
  traverse (fun an => match py_index rows an with
                      | Ok row => traverse to_metres row
                      | Raise e => Raise e
                      end) ans.

Definition get_GNSS_lever_arm_center (m : Msg_060C_topic_0A)
  : result (list (list float)) :=
  scaled_rows (antennas m) (GNSS_lever_arm_center m).

Definition get_GNSS_lever_arm_housing_mark (m : Msg_060C_topic_0A)
  : result (list (list float)) :=
  if Nat.eqb (length (GNSS_lever_arm_housing_mark m)) 0 then Ok []
  else scaled_rows (antennas m) (GNSS_lever_arm_housing_mark m).

(** The invariant of the two lever-arm representations: for every antenna
    and every component, centre = housing mark + internal lever arm. *)
Definition component (rows : list (list Z)) (an i : nat) : option Z :=
  match rows !! an with
  | Some row => row !! i
  | None => None
  end.

Definition lever_arm_invariant (m : Msg_060C_topic_0A) : Prop :=
  forall an i : nat,
    (an < Z.to_nat (antenna_num m))%nat -> (i < 3)%nat ->
    exists c h t : Z,
      component (GNSS_lever_arm_center m) an i = Some c
      /\ component (GNSS_lever_arm_housing_mark m) an i = Some h
      /\ internal_lever_arm m !! i = Some t
      /\ c = h + t.

Definition lever_arm_invariantb (m : Msg_060C_topic_0A) : bool :=
  forallb (fun an =>
    forallb (fun i =>
      match component (GNSS_lever_arm_center m) an i,
            component (GNSS_lever_arm_housing_mark m) an i,
            internal_lever_arm m !! i with
      | Some c, Some h, Some t => c =? h + t
      | _, _, _ => false
      end) [0; 1; 2]%nat) (antennas m).

(** *** The encoder [pack_msg_060D] *)

Section WithChecksum.

(** [utility.check_sum], as in the parser. *)
Variable check_sum : list Z -> Z * Z.

(** The flags byte with the housing/centre bit rewritten. *)
Definition packed_flags (m : Msg_060C_topic_0A) : Z :=
  if flags_leverarm_from_imu_center m
  then Z.land (flags m) (Z.lnot MASK_FLAGS_LEVERARM_FROM_IMU_CENTER)
  else Z.lor (flags m) MASK_FLAGS_LEVERARM_FROM_IMU_CENTER.

(** The optional DMI block, as the code writes it. *)
Definition pack_dmi (m : Msg_060C_topic_0A) : result (list Z) :=
  if DMI_exists m >? 0 then
    b_id ← bytearray_item (DMI_exists m);
    v_scale ← pack_d (DMI_scale_factor m);
    v_arm ← pack_items 3 (pack_int 4) (DMI_lever_arm m);
    v_ext ← (if extended_version_flag m then
               v_unc ← pack_uint 2 (DMI_lever_arm_uncertainty m);
               b_opt ← bytearray_item (DMI_options m);
               mret (v_unc ++ [b_opt])
             else mret []);
    mret ([b_id] ++ v_scale ++ v_arm ++ v_ext)
  else mret [].

(** Everything appended after [FRAME_HEADER] before the length is filled in. *)
Definition pack_payload (m : Msg_060C_topic_0A) : result (list Z) :=
  b_topic ← bytearray_item (topic m);
  b_indicators ← bytearray_item (indicators m);
  b_flags ← bytearray_item (packed_flags m);
  b_icd_num ← bytearray_item (ICD_num m);
  b_min_vel ← bytearray_item (min_vel m);
  v_unaided ← to_bytes2_le (max_unaided_time m);
  v_rate ← to_bytes2_le (max_output_rate m);
  v_imu ← pack_items 9 pack_d (imu_rotation_matrix m);
  v_offset ← pack_items 3 (pack_int 4) (output_position_offset m);
  v_smooth ← (if extended_version_flag m then
                b ← bytearray_item (smooth_mode m); mret [b]
              else mret []);
  v_arms ← pack_items (antenna_num m * 3) (pack_int 4)
             (concat (if flags_leverarm_from_imu_center m
                      then GNSS_lever_arm_center m
                      else GNSS_lever_arm_housing_mark m));
  v_unc ← (if extended_version_flag m then
             pack_items (antenna_num m) (pack_uint 2) (GNSS_lever_arm_uncertainty m)
           else mret []);
  v_icd ← (if ICD_num m >? 0 then
             pack_items (2 * ICD_num m) (pack_uint 1) (ICD_configuration m)
           else mret []);
  v_dmi ← pack_dmi m;
  mret ([b_topic; b_indicators; b_flags; b_icd_num; b_min_vel]
          ++ v_unaided ++ v_rate ++ v_imu ++ v_offset ++ v_smooth
          ++ v_arms ++ v_unc ++ v_icd ++ v_dmi).

(** The object after a call that returns: [flags] and [msg_060D_cmd] are
    rewritten.  (The object a raising call leaves behind is not tracked.) *)
Definition pack_msg_060D (m : Msg_060C_topic_0A) : result Msg_060C_topic_0A :=
  payload ← pack_payload m;
  let cmd := FRAME_HEADER ++ payload in
  v ← to_bytes2_le (Z.of_nat (length cmd) - Z.of_nat (length FRAME_HEADER));
  let cmd1 := take PAYLOAD_LEN_IDX cmd ++ v ++ drop PAYLOAD_LEN_IDX cmd in
  let result := check_sum (drop (PAYLOAD_LEN_IDX + 2) cmd1) in
  b1 ← bytearray_item (snd result);
  b0 ← bytearray_item (fst result);
  mret (with_msg_060D_cmd (with_flags m (packed_flags m)) (cmd1 ++ [b1; b0])).

(** The inbound test of the parser, on a complete frame. *)
Definition parser_accepts (frame : list Z) : bool :=
  let payload_len := 256 * nth_Z frame 5 + nth_Z frame 4 in
  let result := check_sum (slice frame 6 (4 + payload_len + 2)) in
  (fst result =? nth_Z frame (Z.of_nat (length frame) - 2))
  && (snd result =? nth_Z frame (Z.of_nat (length frame) - 1)).

Lemma pack_msg_060D_frame (m m' : Msg_060C_topic_0A) :
  pack_msg_060D m = Ok m' ->
  exists payload : list Z,
    pack_payload m = Ok payload
    /\ Z.of_nat (length payload) < 65536
    /\ msg_060D_cmd m' =
       Parser.frame_bytes Parser.HEADER_06 0x0D payload
         (snd (check_sum payload), fst (check_sum payload)).
Proof.
  unfold pack_msg_060D. destruct (pack_payload m) as [payload|e]; [|discriminate].
  cbn [mbind result_bind].
  rewrite length_app. change (length FRAME_HEADER) with 4%nat.
  replace (Z.of_nat (4 + length payload) - Z.of_nat 4) with (Z.of_nat (length payload))
    by lia.
  unfold to_bytes2_le.
  destruct (Z.ltb_spec (Z.of_nat (length payload)) 65536) as [Hlt|]; cycle 1.
  { rewrite andb_false_r. discriminate. }
  replace (0 <=? Z.of_nat (length payload)) with true
    by (symmetry; apply Z.leb_le; lia).
  cbn [andb mbind result_bind].
  change (take PAYLOAD_LEN_IDX (FRAME_HEADER ++ payload)) with FRAME_HEADER.
  change (drop PAYLOAD_LEN_IDX (FRAME_HEADER ++ payload)) with payload.
  change (drop (PAYLOAD_LEN_IDX + 2)
            (FRAME_HEADER
             ++ [Z.of_nat (length payload) mod 256; Z.of_nat (length payload) / 256]
             ++ payload)) with payload.
  unfold bytearray_item.
  destruct (is_byteb (snd (check_sum payload))); [|discriminate].
  destruct (is_byteb (fst (check_sum payload))); [|discriminate].
  cbn [mbind result_bind mret result_ret]. intros [= <-].
  exists payload. split; [reflexivity|]. split; [assumption|].
  unfold Parser.frame_bytes, Parser.HEADER_06, FRAME_HEADER. simpl.
  rewrite <- ?app_assoc. reflexivity.
Qed.

(** The frame a returning [pack_msg_060D] leaves in [msg_060D_cmd]: header,
    length, payload, and the checksum pair with its second byte first. *)
Lemma pack_msg_060D_layout (m m' : Msg_060C_topic_0A) :
  pack_msg_060D m = Ok m' ->
  exists payload : list Z,
    pack_payload m = Ok payload
    /\ Z.of_nat (length payload) < 65536
    /\ msg_060D_cmd m' =
       Parser.frame_bytes Parser.HEADER_06 0x0D payload
         (snd (check_sum payload), fst (check_sum payload)).
Proof. apply pack_msg_060D_frame. Qed.

(** Fed back to the parser, the encoded frame is dispatched only if the
    two bytes of the checksum are equal. *)
Lemma pack_msg_060D_reingested (m m' : Msg_060C_topic_0A) (payload : list Z) :
  pack_msg_060D m = Ok m' ->
  pack_payload m = Ok payload ->
  (length payload <= 493)%nat ->
  snd (Parser.parser_run check_sum Parser.parser_init (msg_060D_cmd m')) =
  if fst (check_sum payload) =? snd (check_sum payload) then [msg_060D_cmd m'] else [].
Proof.
  intros Hpack Hpl Hlen.
  destruct (pack_msg_060D_frame m m' Hpack) as (payload' & Hpl' & _ & Hcmd).
  rewrite Hpl in Hpl'. injection Hpl' as <-. rewrite Hcmd.
  rewrite (Parser.run_frame check_sum Parser.parser_init Parser.HEADER_06 0x0D payload
             (snd (check_sum payload), fst (check_sum payload))
             (Parser.searching_init)
             (or_intror (or_introl eq_refl)) Hlen).
  simpl snd. simpl fst.
  rewrite (Z.eqb_sym (snd (check_sum payload))), andb_diag. reflexivity.
Qed.

End WithChecksum.

(** *** Shape validation *)

Lemma set_imu_rotation_matrix_validates (m : Msg_060C_topic_0A) (matrix : list float) :
  (length matrix <> 9%nat ->
     set_imu_rotation_matrix m matrix = (m, Raise (ValueError size_matrix_msg)))
  /\ (length matrix = 9%nat ->
        set_imu_rotation_matrix m matrix = (with_imu_rotation_matrix m matrix, Ok tt)).
Proof.
  unfold set_imu_rotation_matrix.
  destruct (Nat.eqb_spec (length matrix) 9); split; intros; simpl; congruence.
Qed.

(** The guard of the two lever-arm setters looks at the length of the list
    and at its first row only. *)
Lemma set_GNSS_lever_arm_center_guard (m : Msg_060C_topic_0A)
    (first : list float) (others : list (list float)) :
  Z.of_nat (length (first :: others)) <> antenna_num m \/ length first <> 3%nat ->
  set_GNSS_lever_arm_center m (first :: others)
  = (m, Raise (ValueError size_lever_arm_msg)).
Proof.
  intros H. unfold set_GNSS_lever_arm_center.
  destruct (Z.eqb_spec (Z.of_nat (length (first :: others))) (antenna_num m));
    [|reflexivity].
  destruct H as [H|H]; [contradiction|]. simpl.
  destruct (Nat.eqb_spec (length first) 3); [contradiction | reflexivity].
Qed.

(** *** Rows derived from the other representation *)

Lemma derive_row_spec (op : Z -> Z -> Z) (src_row internal row : list Z) :
  derive_row op src_row internal = Ok row ->
  forall i : nat, (i < 3)%nat ->
    exists a b : Z,
      src_row !! i = Some a /\ internal !! i = Some b /\ row !! i = Some (op a b).
Proof.
  unfold derive_row, traverse, py_index. intros H i Hi.
  destruct (src_row !! 0%nat) as [a0|] eqn:Ha0; [|discriminate].
  destruct (internal !! 0%nat) as [b0|] eqn:Hb0; [|discriminate].
  destruct (src_row !! 1%nat) as [a1|] eqn:Ha1; [|discriminate].
  destruct (internal !! 1%nat) as [b1|] eqn:Hb1; [|discriminate].
  destruct (src_row !! 2%nat) as [a2|] eqn:Ha2; [|discriminate].
  destruct (internal !! 2%nat) as [b2|] eqn:Hb2; [|discriminate].
  injection H as <-.
  destruct i as [|[|[|i]]]; [| | |lia]; eauto.
Qed.

Lemma append_derived_spec (op : Z -> Z -> Z) (src : list (list Z)) (internal : list Z)
    (ans : list nat) : forall dst dst' : list (list Z),
  append_derived op src internal ans dst = (dst', Ok tt) ->
  exists rows : list (list Z),
    dst' = dst ++ rows
    /\ length rows = length ans
    /\ forall (k an : nat), ans !! k = Some an ->
         exists src_row row : list Z,
           src !! an = Some src_row /\ rows !! k = Some row
           /\ derive_row op src_row internal = Ok row.
Proof.
  induction ans as [|an0 ans IH]; intros dst dst' H; simpl in H.
  - injection H as <-. exists []. rewrite app_nil_r. repeat split.
    intros k an Hk. rewrite lookup_nil in Hk. discriminate.
  - unfold py_index in H. destruct (src !! an0) as [src_row|] eqn:Hsrc; [|discriminate].
    destruct (derive_row op src_row internal) as [row|] eqn:Hrow; [|discriminate].
    destruct (IH _ _ H) as (rows & -> & Hlen & Hrows).
    exists (row :: rows). rewrite <- app_assoc. repeat split; [simpl; lia|].
    intros [|k] an Hk; simpl in Hk.
    + injection Hk as <-. exists src_row, row. repeat split; assumption.
    + apply Hrows. assumption.
Qed.

(** Rows derived into an empty list give the invariant on those rows. *)
Lemma derived_rows_related (op : Z -> Z -> Z) (src : list (list Z))
    (internal : list Z) (n : nat) (dst' : list (list Z)) :
  append_derived op src internal (seq 0 n) [] = (dst', Ok tt) ->
  forall an i : nat, (an < n)%nat -> (i < 3)%nat ->
    exists a b : Z,
      component src an i = Some a /\ internal !! i = Some b
      /\ component dst' an i = Some (op a b).
Proof.
  intros H an i Han Hi.
  destruct (append_derived_spec _ _ _ _ _ _ H) as (rows & -> & _ & Hrows).
  destruct (Hrows an an) as (src_row & row & Hsrc & Hrow & Hder).
  { apply lookup_seq. lia. }
  destruct (derive_row_spec _ _ _ _ Hder i Hi) as (a & b & Ha & Hb & Hab).
  exists a, b. unfold component. simpl. rewrite Hsrc, Hrow. auto.
Qed.

Lemma lever_arm_invariantb_spec (m : Msg_060C_topic_0A) :
  lever_arm_invariantb m = true <-> lever_arm_invariant m.
Proof.
  unfold lever_arm_invariantb, lever_arm_invariant, antennas.
  rewrite forallb_forall. split.
  - intros H an i Han Hi.
    specialize (H an). rewrite forallb_forall in H.
    assert (Hin : In an (seq 0 (Z.to_nat (antenna_num m)))) by (apply in_seq; lia).
    specialize (H Hin i).
    assert (Hi3 : In i [0; 1; 2]%nat) by (simpl; lia).
    specialize (H Hi3).
    destruct (component (GNSS_lever_arm_center m) an i) as [c|]; [|discriminate].
    destruct (component (GNSS_lever_arm_housing_mark m) an i) as [h|]; [|discriminate].
    destruct (internal_lever_arm m !! i) as [t|]; [|discriminate].
    exists c, h, t. repeat split. apply Z.eqb_eq. assumption.
  - intros H an Han. apply in_seq in Han. rewrite forallb_forall. intros i Hi.
    assert (Hi3 : (i < 3)%nat) by (simpl in Hi; lia).
    destruct (H an i) as (c & h & t & -> & -> & -> & ->); [lia | assumption |].
    apply Z.eqb_refl.
Qed.

(** A lever-arm setter that returns leaves the two representations
    consistent with the internal lever arm. *)
Lemma set_GNSS_lever_arm_center_invariant (m m' : Msg_060C_topic_0A)
    (lever_arm : list (list float)) :
  set_GNSS_lever_arm_center m lever_arm = (m', Ok tt) -> lever_arm_invariant m'.
Proof.
  unfold set_GNSS_lever_arm_center.
  destruct (negb _); [discriminate|].
  destruct (py_index lever_arm 0) as [first|]; [|discriminate].
  destruct (negb _); [discriminate|].
  destruct (scale_rows (antennas m) lever_arm) as [center|]; [|discriminate].
  cbv zeta. unfold antennas. simpl.
  destruct (append_derived Z.sub center (internal_lever_arm m)
              (seq 0 (Z.to_nat (antenna_num m))) []) as [housing r] eqn:Happ.
  intros [= <- ->]. intros an i Han Hi. simpl in *.
  destruct (derived_rows_related _ _ _ _ _ Happ an i Han Hi) as (a & b & Ha & Hb & Hab).
  exists a, (a - b), b. repeat split; try assumption. lia.
Qed.

Lemma set_GNSS_lever_arm_housing_mark_invariant (m m' : Msg_060C_topic_0A)
    (lever_arm : list (list float)) :
  set_GNSS_lever_arm_housing_mark m lever_arm = (m', Ok tt) -> lever_arm_invariant m'.
Proof.
  unfold set_GNSS_lever_arm_housing_mark.
  destruct (negb _); [discriminate|].
  destruct (py_index lever_arm 0) as [first|]; [|discriminate].
  destruct (negb _); [discriminate|].
  destruct (scale_rows (antennas m) lever_arm) as [housing|]; [|discriminate].
  cbv zeta. unfold antennas. simpl.
  destruct (append_derived Z.add housing (internal_lever_arm m)
              (seq 0 (Z.to_nat (antenna_num m))) []) as [center r] eqn:Happ.
  intros [= <- ->]. intros an i Han Hi. simpl in *.
  destruct (derived_rows_related _ _ _ _ _ Happ an i Han Hi) as (a & b & Ha & Hb & Hab).
  exists (a + b), a, b. repeat split; assumption.
Qed.

(** Back-filling: with the other representation still empty,
    [update_GNSS_lever_arm_by_internal_lever_arm] establishes the invariant. *)
Lemma update_backfill_invariant (m m' : Msg_060C_topic_0A) (internal : list float) :
  (if flags_leverarm_from_imu_center m
   then GNSS_lever_arm_housing_mark m else GNSS_lever_arm_center m) = [] ->
  update_GNSS_lever_arm_by_internal_lever_arm m internal = (m', Ok tt) ->
  lever_arm_invariant m'.
Proof.
  unfold update_GNSS_lever_arm_by_internal_lever_arm.
  destruct (traverse to_raw internal) as [raw|]; [|discriminate].
  cbv zeta. unfold antennas. simpl.
  destruct (flags_leverarm_from_imu_center m); intros ->.
  - destruct (append_derived Z.sub (GNSS_lever_arm_center m) raw
                (seq 0 (Z.to_nat (antenna_num m))) []) as [housing r] eqn:Happ.
    intros [= <- ->]. intros an i Han Hi. simpl in *.
    destruct (derived_rows_related _ _ _ _ _ Happ an i Han Hi)
      as (c & t & Hc & Ht & Hct).
    exists c, (c - t), t. repeat split; try assumption. lia.
  - destruct (append_derived Z.add (GNSS_lever_arm_housing_mark m) raw
                (seq 0 (Z.to_nat (antenna_num m))) []) as [center r] eqn:Happ.
    intros [= <- ->]. intros an i Han Hi. simpl in *.
    destruct (derived_rows_related _ _ _ _ _ Happ an i Han Hi)
      as (h & t & Hh & Ht & Hht).
    exists (h + t), h, t. repeat split; assumption.
Qed.

(** *** Concrete states *)

(** A decoded configuration: two antennas, lever arms given from the IMU
    centre, identity rotation, no extension and no DMI block; the internal
    lever arm is known and both representations are filled in. *)
Definition sample_msg : Msg_060C_topic_0A :=
  mk_msg 0x0A 2 0 0 5 300 1000
    [1; 0; 0; 0; 1; 0; 0; 0; 1]%float
    [0; 0; 0] 0
    [[2819; 36; -673]; [-3277; 36; -673]]
    [[2719; 36; -673]; [-3377; 36; -673]]
    [100; 0; 0] [] []
    0 0%float [] 0 0
    false 2 0 true true [].

(** A state before any internal lever arm is known. *)
Definition fresh_msg : Msg_060C_topic_0A :=
  mk_msg 0x0A 2 0 0 5 300 1000
    [1; 0; 0; 0; 1; 0; 0; 0; 1]%float
    [0; 0; 0] 0
    [] [] [] [] []
    0 0%float [] 0 0
    false 2 0 true true [].

(** C3 (code defect).  For the sample state and the sample checksum,
    [pack_msg_060D] returns a frame whose trailer is the checksum pair in
    reverse order, second byte first; the two bytes differ, and the parser
    does not dispatch the frame when it reads it back. *)
Theorem pack_msg_060D_trailer_reversed :
  let cs := Parser.sample_check_sum in
  exists (m' : Msg_060C_topic_0A) (payload : list Z),
    pack_msg_060D cs sample_msg = Ok m'
    /\ msg_060D_cmd m' =
       FRAME_HEADER ++ [Z.of_nat (length payload) mod 256;
                        Z.of_nat (length payload) / 256]
         ++ payload ++ [snd (cs payload); fst (cs payload)]
    /\ cs payload = (228, 53)
    /\ parser_accepts cs (msg_060D_cmd m') = false
    /\ snd (Parser.parser_run cs Parser.parser_init (msg_060D_cmd m')) = [].
Proof.
  cbv zeta.
  destruct (pack_msg_060D Parser.sample_check_sum sample_msg) as [m'|e] eqn:Hpack;
    [|vm_compute in Hpack; discriminate].
  destruct (pack_payload sample_msg) as [payload|e] eqn:Hpl;
    [|vm_compute in Hpl; discriminate].
  exists m', payload.
  vm_compute in Hpack. injection Hpack as <-.
  vm_compute in Hpl. injection Hpl as <-.
  repeat split; vm_compute; reflexivity.
Qed.

(** C4 (code defect).  With two antennas, a list of two rows whose second
    row has two components passes the guard of
    [set_GNSS_lever_arm_center]: the call ends in an index fault, not in
    the invalid-input fault, after it has replaced the centre lever arms
    and started to rebuild the housing-mark ones. *)
Theorem set_GNSS_lever_arm_center_partial_update :
  set_GNSS_lever_arm_center sample_msg [[1; 2; 3]; [4; 5]]%float
  = (with_housing_mark
       (with_center sample_msg [[10000; 20000; 30000]; [40000; 50000]])
       [[9900; 20000; 30000]],
     Raise IndexError).
Proof. vm_compute. reflexivity. Qed.

(** The same defect on the other setter, and the fault of a different
    kind when no antenna is configured and the list is empty. *)
Example set_GNSS_lever_arm_housing_mark_partial_update :
  set_GNSS_lever_arm_housing_mark sample_msg [[1; 2; 3]; [4; 5]]%float
  = (with_center
       (with_housing_mark sample_msg [[10000; 20000; 30000]; [40000; 50000]])
       [[10100; 20000; 30000]],
     Raise IndexError).
Proof. vm_compute. reflexivity. Qed.

Example set_GNSS_lever_arm_center_unknown_internal :
  set_GNSS_lever_arm_center fresh_msg [[1; 2; 3]; [4; 5; 6]]%float
  = (with_housing_mark
       (with_center fresh_msg [[10000; 20000; 30000]; [40000; 50000; 60000]]) [],
     Raise IndexError).
Proof. vm_compute. reflexivity. Qed.

(** C5 (code defect).  In the sample state both representations and the
    internal lever arm are known and the invariant holds.
    [update_GNSS_lever_arm_by_internal_lever_arm] with another internal
    lever arm returns normally, appends the new housing-mark rows after
    the old ones, and the invariant no longer holds. *)
Theorem update_breaks_lever_arm_invariant :
  lever_arm_invariantb sample_msg = true
  /\ update_GNSS_lever_arm_by_internal_lever_arm sample_msg [0.02; 0; 0]%float
     = (with_housing_mark (with_internal_lever_arm sample_msg [200; 0; 0])
          [[2719; 36; -673]; [-3377; 36; -673]; [2619; 36; -673]; [-3477; 36; -673]],
        Ok tt)
  /\ lever_arm_invariantb
       (fst (update_GNSS_lever_arm_by_internal_lever_arm sample_msg [0.02; 0; 0]%float))
     = false.
Proof. repeat split; vm_compute; reflexivity. Qed.

(** C10.  With an empty housing-mark list the getter returns the empty
    list, whatever the number of antennas; with an empty centre list and
    at least one antenna the centre getter ends in an index fault. *)
Theorem getters_on_empty_lists (m1 m2 : Msg_060C_topic_0A) :
  GNSS_lever_arm_housing_mark m1 = [] ->
  GNSS_lever_arm_center m2 = [] ->
  0 < antenna_num m2 ->
  get_GNSS_lever_arm_housing_mark m1 = Ok []
  /\ get_GNSS_lever_arm_center m2 = Raise IndexError.
Proof.
  intros H1 H2 Hn. split.
  - unfold get_GNSS_lever_arm_housing_mark. rewrite H1. reflexivity.
  - unfold get_GNSS_lever_arm_center, antennas. rewrite H2.
    destruct (Z.to_nat (antenna_num m2)) as [|n] eqn:Hnat; [lia|].
    reflexivity.
Qed.

Lemma getters_on_empty_lists_witness :
  0 < antenna_num fresh_msg
  /\ get_GNSS_lever_arm_housing_mark fresh_msg = Ok []
  /\ get_GNSS_lever_arm_center fresh_msg = Raise IndexError.
Proof.
  split; [reflexivity|].
  apply (getters_on_empty_lists fresh_msg fresh_msg); reflexivity.
Defined.

(** *** Concrete runs of the supporting results *)

Lemma pack_msg_060D_layout_witness :
  exists (m' : Msg_060C_topic_0A) (payload : list Z),
    pack_msg_060D Parser.sample_check_sum sample_msg = Ok m'
    /\ length payload = 117%nat
    /\ msg_060D_cmd m' =
       Parser.frame_bytes Parser.HEADER_06 0x0D payload
         (snd (Parser.sample_check_sum payload), fst (Parser.sample_check_sum payload)).
Proof.
  destruct (pack_msg_060D Parser.sample_check_sum sample_msg) as [m'|e] eqn:Hpack;
    [|vm_compute in Hpack; discriminate].
  destruct (pack_msg_060D_layout Parser.sample_check_sum sample_msg m' Hpack)
    as (payload & Hpl & _ & Hcmd).
  exists m', payload. split; [reflexivity|]. split; [|exact Hcmd].
  vm_compute in Hpl. injection Hpl as <-. reflexivity.
Defined.

Lemma pack_msg_060D_reingested_witness :
  exists m' : Msg_060C_topic_0A,
    pack_msg_060D Parser.sample_check_sum sample_msg = Ok m'
    /\ snd (Parser.parser_run Parser.sample_check_sum Parser.parser_init
              (msg_060D_cmd m')) = [].
Proof.
  destruct (pack_msg_060D Parser.sample_check_sum sample_msg) as [m'|e] eqn:Hpack;
    [|vm_compute in Hpack; discriminate].
  destruct (pack_payload sample_msg) as [payload|e] eqn:Hpl;
    [|vm_compute in Hpl; discriminate].
  exists m'. split; [reflexivity|].
  rewrite (pack_msg_060D_reingested Parser.sample_check_sum sample_msg m' payload
             Hpack Hpl).
  - vm_compute in Hpl. injection Hpl as <-. reflexivity.
  - vm_compute in Hpl. injection Hpl as <-. simpl. lia.
Defined.

Lemma set_imu_rotation_matrix_validates_witness :
  set_imu_rotation_matrix sample_msg [1; 0; 0; 0; 1; 0; 0; 0]%float
  = (sample_msg, Raise (ValueError size_matrix_msg)).
Proof.
  apply (set_imu_rotation_matrix_validates sample_msg [1; 0; 0; 0; 1; 0; 0; 0]%float).
  simpl. lia.
Defined.

Lemma set_GNSS_lever_arm_center_guard_witness :
  set_GNSS_lever_arm_center sample_msg [[1; 2]; [4; 5; 6]]%float
  = (sample_msg, Raise (ValueError size_lever_arm_msg)).
Proof.
  apply (set_GNSS_lever_arm_center_guard sample_msg [1; 2]%float [[4; 5; 6]]%float).
  right. simpl. lia.
Defined.

Lemma set_GNSS_lever_arm_center_invariant_witness :
  lever_arm_invariant
    (fst (set_GNSS_lever_arm_center sample_msg [[1; 2; 3]; [4; 5; 6]]%float)).
Proof.
  apply (set_GNSS_lever_arm_center_invariant sample_msg _ [[1; 2; 3]; [4; 5; 6]]%float).
  vm_compute. reflexivity.
Defined.

Lemma set_GNSS_lever_arm_housing_mark_invariant_witness :
  lever_arm_invariant
    (fst (set_GNSS_lever_arm_housing_mark sample_msg [[1; 2; 3]; [4; 5; 6]]%float)).
Proof.
  apply (set_GNSS_lever_arm_housing_mark_invariant sample_msg _
           [[1; 2; 3]; [4; 5; 6]]%float).
  vm_compute. reflexivity.
Defined.

(** A state as decoded: centre lever arms known, housing-mark ones and
    the internal lever arm not yet. *)
Definition decoded_msg : Msg_060C_topic_0A :=
  with_center fresh_msg [[2819; 36; -673]; [-3277; 36; -673]].

Lemma update_backfill_invariant_witness :
  lever_arm_invariant
    (fst (update_GNSS_lever_arm_by_internal_lever_arm decoded_msg [0.01; 0; 0]%float)).
Proof.
  apply (update_backfill_invariant decoded_msg _ [0.01; 0; 0]%float).
  - reflexivity.
  - vm_compute. reflexivity.
Defined.

End UserConfig.

(** ** The fixed-shape decoder ([RoverDriver.unpack_output_packet]) *)

Module Unpack.

(** An entry of a catalog packet's [payload] list. *)
Record field : Type := mk_field { name : string; type : string }.

(** [struct.unpack]: size and value of each format code. *)
Definition code_size (c : ascii) : option nat :=
  if Ascii.eqb c "f" then Some 4%nat
  else if Ascii.eqb c "I" then Some 4%nat
  else if Ascii.eqb c "i" then Some 4%nat
  else if Ascii.eqb c "h" then Some 2%nat
  else if Ascii.eqb c "H" then Some 2%nat
  else if Ascii.eqb c "d" then Some 8%nat
  else if Ascii.eqb c "q" then Some 8%nat
  else if Ascii.eqb c "Q" then Some 8%nat
  else if Ascii.eqb c "c" then Some 1%nat
  else if Ascii.eqb c "B" then Some 1%nat
  else None.

Definition code_value (c : ascii) (bs : list Z) : pyval :=
  if Ascii.eqb c "f" then PFloat (single_of_bits (le_value bs))
  else if Ascii.eqb c "d" then PFloat (double_of_bits (le_value bs))
  else if Ascii.eqb c "i" then PInt (to_signed 4 (le_value bs))
  else if Ascii.eqb c "h" then PInt (to_signed 2 (le_value bs))
  else if Ascii.eqb c "q" then PInt (to_signed 8 (le_value bs))
  else if Ascii.eqb c "c" then PBytes bs
  else PInt (le_value bs).

Fixpoint unpack_codes (codes : string) (b : list Z) : result (list pyval) :=
  match codes with
  | EmptyString => match b with [] => Ok [] | _ :: _ => Raise StructError end
  | String c rest =>
      match code_size c with
      | None => Raise StructError
      | Some w =>
          if (length b <? w)%nat then Raise StructError
          else match unpack_codes rest (drop w b) with
               | Ok vs => Ok (code_value c (take w b) :: vs)
               | Raise e => Raise e
               end
      end
  end.

(** [struct.unpack(fmt, b)] for a little-endian format. *)
Definition struct_unpack (fmt : string) (b : list Z) : result (list pyval) :=
  match fmt with
  | String "<" codes => unpack_codes codes b
  | _ => Raise StructError
  end.

(** [enumerate(l)], counting from [k]. *)
Fixpoint enumerate_from {A : Type} (k : nat) (l : list A) : list (nat * A) :=
  match l with
  | [] => []
  | x :: rest => (k, x) :: enumerate_from (S k) rest
  end.

(** The loop over the catalog fields: the format and the byte count built
    so far, or the field of type [string] that cuts the loop short.  A
    type the chain of tests does not know adds nothing. *)
Fixpoint scan_fields (fields : list field) (pack_fmt : string) (length : Z)
  : (string * Z) + field :=
  match fields with
  | [] => inl (pack_fmt, length)
  | value :: rest =>
      if String.eqb (type value) "string" then inr value
      else if String.eqb (type value) "float" then
        scan_fields rest (pack_fmt ++ "f")%string (length + 4)
      else if String.eqb (type value) "uint32" then
        scan_fields rest (pack_fmt ++ "I")%string (length + 4)
      else if String.eqb (type value) "int32" then
        scan_fields rest (pack_fmt ++ "i")%string (length + 4)
      else if String.eqb (type value) "int16" then
        scan_fields rest (pack_fmt ++ "h")%string (length + 2)
      else if String.eqb (type value) "uint16" then
        scan_fields rest (pack_fmt ++ "H")%string (length + 2)
      else if String.eqb (type value) "double" then
        scan_fields rest (pack_fmt ++ "d")%string (length + 8)
      else if String.eqb (type value) "int64" then
        scan_fields rest (pack_fmt ++ "q")%string (length + 8)
      else if String.eqb (type value) "uint64" then
        scan_fields rest (pack_fmt ++ "Q")%string (length + 8)
      else if String.eqb (type value) "char" then
        scan_fields rest (pack_fmt ++ "c")%string (length + 1)
      else if String.eqb (type value) "uchar" then
        scan_fields rest (pack_fmt ++ "B")%string (length + 1)
      else if String.eqb (type value) "uint8" then
        scan_fields rest (pack_fmt ++ "B")%string (length + 1)
      else scan_fields rest pack_fmt length
  end.

Section WithDecode.

(** [bytes.decode()], Python's UTF-8 codec. *)
Variable decode : list Z -> result string.

Definition handle_string_filed (value : field) (payload : list Z) (string_len : Z)
  : result odict :=
  b ← pack_items string_len (pack_uint 1) payload;
  text ← decode b;
  mret (odict_of_pairs [(name value, PStr text)]).

Definition unpack_output_packet (fields : list field) (payload : list Z)
    (payload_len : Z) : result odict :=
  match scan_fields fields "<" 0 with
  | inr value => handle_string_filed value payload payload_len
  | inl (pack_fmt, length) =>
      b ← pack_items length (pack_uint 1) payload;
      data ← struct_unpack pack_fmt b;
      out ← traverse (fun iv => v ← py_index data (fst iv);
                                mret (name (snd iv), v))
                     (enumerate_from 0 fields);
      mret (odict_of_pairs out)
  end.

End WithDecode.

(** *** The decode as the specification words it *)

(** Byte width of a field type. *)
Definition type_width (t : string) : nat :=
  if String.eqb t "double" || String.eqb t "uint64" || String.eqb t "int64" then 8
  else if String.eqb t "float" || String.eqb t "uint32" || String.eqb t "int32" then 4
  else if String.eqb t "uint16" || String.eqb t "int16" then 2
  else if String.eqb t "char" || String.eqb t "uchar" || String.eqb t "uint8" then 1
  else 0.

(** Little-endian reading of the bytes of one field. *)
Definition type_value (t : string) (bs : list Z) : pyval :=
  if String.eqb t "double" then PFloat (double_of_bits (le_value bs))
  else if String.eqb t "float" then PFloat (single_of_bits (le_value bs))
  else if String.eqb t "int64" then PInt (to_signed 8 (le_value bs))
  else if String.eqb t "int32" then PInt (to_signed 4 (le_value bs))
  else if String.eqb t "int16" then PInt (to_signed 2 (le_value bs))
  else if String.eqb t "char" then PBytes bs
  else PInt (le_value bs).

(** The value sequence read off the front of the payload, field by field. *)
Fixpoint decode_le (types : list string) (bytes : list Z) : list pyval :=
  match types with
  | [] => []
  | t :: rest =>
      type_value t (take (type_width t) bytes)
        :: decode_le rest (drop (type_width t) bytes)
  end.

(** N, the sum of the per-field widths. *)
Definition fixed_size (fields : list field) : nat :=
  list_sum (map (fun f => type_width (type f)) fields).

Definition known_types : list string :=
  ["float"; "uint32"; "int32"; "int16"; "uint16"; "double"; "int64"; "uint64";
   "char"; "uchar"; "uint8"]%string.

(** A catalog entry of fixed shape: every field has one of the numeric or
    character types (none is a string). *)
Definition fixed_shape (fields : list field) : Prop :=
  Forall (fun f => In (type f) known_types) fields.

(** The format code the loop appends for a type. *)
Definition code_of (t : string) : ascii :=
  if String.eqb t "float" then "f"
  else if String.eqb t "uint32" then "I"
  else if String.eqb t "int32" then "i"
  else if String.eqb t "int16" then "h"
  else if String.eqb t "uint16" then "H"
  else if String.eqb t "double" then "d"
  else if String.eqb t "int64" then "q"
  else if String.eqb t "uint64" then "Q"
  else if String.eqb t "char" then "c"
  else "B".

Fixpoint codes_of (fields : list field) : string :=
  match fields with
  | [] => EmptyString
  | f :: rest => String (code_of (type f)) (codes_of rest)
  end.

Ltac known_type_cases H :=
  unfold known_types in H; simpl in H;
  repeat (destruct H as [H | H]; [symmetry in H|]); [..|contradiction].

Lemma append_snoc (a : string) (c : ascii) (b : string) :
  ((a ++ String c EmptyString) ++ b)%string = (a ++ String c b)%string.
Proof.
  induction a as [|x a IH]; [reflexivity|].
  change (String x ((a ++ String c EmptyString) ++ b)%string
          = String x (a ++ String c b)%string).
  rewrite IH. reflexivity.
Qed.

Lemma append_empty (a : string) : (a ++ "")%string = a.
Proof.
  induction a as [|x a IH]; [reflexivity|].
  change (String x (a ++ "")%string = String x a). rewrite IH. reflexivity.
Qed.

Lemma scan_fields_fixed (fields : list field) :
  fixed_shape fields ->
  forall (pack_fmt : string) (length : Z),
    scan_fields fields pack_fmt length =
    inl ((pack_fmt ++ codes_of fields)%string, length + Z.of_nat (fixed_size fields)).
Proof.
  induction 1 as [|f fields Hf _ IH]; intros pack_fmt len.
  - simpl. rewrite append_empty, Z.add_0_r. reflexivity.
  - destruct f as [n t]. simpl in Hf.
    known_type_cases Hf; subst t;
      cbn [scan_fields type String.eqb Ascii.eqb Bool.eqb];
      rewrite IH, append_snoc; unfold fixed_size;
      cbn [map list_sum fold_right codes_of type];
      f_equal; f_equal;
      match goal with
      | |- context [type_width (String ?a ?b)] =>
          let v := eval vm_compute in (type_width (String a b)) in
          change (type_width (String a b)) with v
      end;
      unfold list_sum; lia.
Qed.

Lemma unpack_codes_fixed (fields : list field) :
  fixed_shape fields ->
  forall b : list Z,
    length b = fixed_size fields ->
    unpack_codes (codes_of fields) b = Ok (decode_le (map type fields) b).
Proof.
  induction 1 as [|f fields Hf _ IH]; intros b Hb.
  - destruct b; [reflexivity | discriminate].
  - destruct f as [n t]. simpl in Hf.
    change (fixed_size (mk_field n t :: fields))
      with (type_width t + fixed_size fields)%nat in Hb.
    cbn [codes_of map decode_le unpack_codes type].
    assert (Hsize : code_size (code_of t) = Some (type_width t)
                    /\ forall bs, code_value (code_of t) bs = type_value t bs).
    { known_type_cases Hf; subst t; split; reflexivity. }
    destruct Hsize as [-> Hval].
    destruct (Nat.ltb_spec (length b) (type_width t)); [lia|].
    rewrite IH by (rewrite length_drop; lia).
    rewrite Hval. reflexivity.
Qed.

Lemma decode_le_length (types : list string) (b : list Z) :
  length (decode_le types b) = length types.
Proof. revert b; induction types as [|t types IH]; intros b; simpl; auto. Qed.

Lemma pack_bytes_exact (payload : list Z) (n : Z) :
  Forall is_byte payload ->
  pack_items n (pack_uint 1) payload =
  if Z.of_nat (length payload) =? n then Ok payload else Raise StructError.
Proof.
  intros Hb. unfold pack_items.
  destruct (Z.of_nat (length payload) =? n); [|reflexivity].
  assert (H : traverse (pack_uint 1) payload = Ok (map (fun b => [b]) payload)).
  { induction Hb as [|b l Hbyte _ IH]; [reflexivity|]. simpl.
    unfold pack_uint at 1. unfold is_byte in Hbyte.
    change (256 ^ Z.of_nat 1) with 256.
    destruct (Z.leb_spec 0 b); [|lia]. destruct (Z.ltb_spec b 256); [|lia].
    simpl. rewrite IH. unfold le_bytes. simpl.
    rewrite Z.div_1_r, Z.mod_small by lia. reflexivity. }
  rewrite H. f_equal. clear. induction payload; simpl; congruence.
Qed.

Lemma traverse_enumerate (fields : list field) :
  forall (k : nat) (pre vs : list pyval),
    length pre = k ->
    length vs = length fields ->
    traverse (fun iv => v ← py_index (pre ++ vs) (fst iv); mret (name (snd iv), v))
             (enumerate_from k fields)
    = Ok (combine (map name fields) vs).
Proof.
  induction fields as [|f fields IH]; intros k pre vs Hk Hvs.
  - reflexivity.
  - destruct vs as [|v vs]; [discriminate|]. simpl.
    unfold py_index at 1. rewrite list_lookup_middle by (symmetry; exact Hk).
    cbn [mbind result_bind mret result_ret].
    replace (pre ++ v :: vs) with ((pre ++ [v]) ++ vs)
      by (rewrite <- app_assoc; reflexivity).
    rewrite IH; [reflexivity | rewrite length_app; simpl; lia | simpl in Hvs; lia].
Qed.

Lemma odict_set_fresh (d : odict) (k : string) (v : pyval) :
  ~ In k (map fst d) -> odict_set d k v = d ++ [(k, v)].
Proof.
  induction d as [|[k' v'] d IH]; intros Hk; [reflexivity|]. simpl in *.
  destruct (String.eqb_spec k' k); [tauto|]. rewrite IH by tauto. reflexivity.
Qed.

(** With pairwise different keys the dictionary is the list of pairs. *)
Lemma odict_of_pairs_nodup (pairs : list (string * pyval)) :
  NoDup (map fst pairs) -> odict_of_pairs pairs = pairs.
Proof.
  unfold odict_of_pairs.
  assert (H : forall acc, NoDup (map fst (acc ++ pairs)) ->
              fold_left (fun d kv => odict_set d (fst kv) (snd kv)) pairs acc
              = acc ++ pairs).
  { induction pairs as [|[k v] pairs IH]; intros acc Hnd; simpl.
    - rewrite app_nil_r. reflexivity.
    - rewrite odict_set_fresh.
      + rewrite IH; rewrite <- app_assoc; [reflexivity | exact Hnd].
      + rewrite map_app in Hnd. simpl in Hnd.
        apply NoDup_app in Hnd as (_ & Hdis & _).
        intros Hin. apply (Hdis k); [apply list_elem_of_In; exact Hin|].
        left. }
  intros Hnd. apply (H []). exact Hnd.
Qed.

(** For a catalog entry of fixed shape and a payload of exactly N bytes,
    the decoder returns the field names, in catalog order, mapped to the
    little-endian values read off the payload field by field; with
    pairwise different names the mapping is the zip itself. *)
Theorem unpack_output_packet_exact (decode : list Z -> result string)
    (fields : list field) (payload : list Z) (payload_len : Z) :
  fixed_shape fields ->
  Forall is_byte payload ->
  length payload = fixed_size fields ->
  unpack_output_packet decode fields payload payload_len
  = Ok (odict_of_pairs
          (combine (map name fields) (decode_le (map type fields) payload)))
  /\ (NoDup (map name fields) ->
      unpack_output_packet decode fields payload payload_len
      = Ok (combine (map name fields) (decode_le (map type fields) payload))).
Proof.
  intros Hshape Hbytes Hlen.
  assert (H : unpack_output_packet decode fields payload payload_len
              = Ok (odict_of_pairs
                      (combine (map name fields)
                               (decode_le (map type fields) payload)))).
  { unfold unpack_output_packet.
    rewrite (scan_fields_fixed fields Hshape). simpl String.append.
    rewrite (pack_bytes_exact payload _ Hbytes).
    replace (Z.of_nat (length payload) =? 0 + Z.of_nat (fixed_size fields)) with true
      by (symmetry; apply Z.eqb_eq; lia).
    cbn [mbind result_bind]. unfold struct_unpack.
    change ("<" +:+ codes_of fields) with (String "<" (codes_of fields)).
    cbn iota. rewrite (unpack_codes_fixed fields Hshape payload Hlen).
    cbn [mbind result_bind].
    pose proof (traverse_enumerate fields 0 []
                  (decode_le (map type fields) payload) eq_refl) as Ht.
    cbn [app] in Ht. cbn [mbind result_bind] in Ht.
    rewrite Ht by (rewrite decode_le_length, length_map; reflexivity).
    reflexivity. }
  split; [exact H|]. intros Hnd. rewrite H. f_equal.
  apply odict_of_pairs_nodup.
  assert (Hfst : forall (ks : list string) (vs : list pyval),
             length ks = length vs -> map fst (combine ks vs) = ks).
  { induction ks as [|k ks IH]; intros [|v vs] Hl; simpl in *;
      try discriminate; try reflexivity. f_equal. apply IH. lia. }
  rewrite Hfst; [exact Hnd|].
  rewrite decode_le_length, !length_map. reflexivity.
Qed.

(** A payload shorter or longer than N bytes makes the fixed-shape decode
    fail with a [struct] error: bytes beyond the first N are not ignored. *)
Theorem unpack_output_packet_size_mismatch (decode : list Z -> result string)
    (fields : list field) (payload : list Z) (payload_len : Z) :
  fixed_shape fields ->
  Forall is_byte payload ->
  length payload <> fixed_size fields ->
  unpack_output_packet decode fields payload payload_len = Raise StructError.
Proof.
  intros Hshape Hbytes Hlen. unfold unpack_output_packet.
  rewrite (scan_fields_fixed fields Hshape).
  rewrite (pack_bytes_exact payload _ Hbytes).
  destruct (Z.eqb_spec (Z.of_nat (length payload)) (0 + Z.of_nat (fixed_size fields)));
    [lia | reflexivity].
Qed.

(** A small catalog entry and the codec used to run the examples. *)
Definition sample_fields : list field :=
  [mk_field "System time" "uint32"; mk_field "Height" "int16";
   mk_field "Mode" "uint8"].

Definition ascii_decode (b : list Z) : result string :=
  Ok (string_of_list_ascii (map (fun z => ascii_of_nat (Z.to_nat z)) b)).

Lemma sample_fields_fixed : fixed_shape sample_fields.
Proof. repeat constructor; simpl; tauto. Qed.

Lemma bytes_are_bytes (l : list Z) :
  forallb is_byteb l = true -> Forall is_byte l.
Proof.
  rewrite forallb_forall, Forall_forall. intros H x Hx.
  apply list_elem_of_In in Hx. specialize (H x Hx).
  unfold is_byteb in H. unfold is_byte.
  apply andb_true_iff in H as [H1 H2]. lia.
Qed.

Lemma unpack_output_packet_exact_witness :
  unpack_output_packet ascii_decode sample_fields [0x10; 0x27; 0; 0; 0xFE; 0xFF; 6] 7
  = Ok [("System time", PInt 10000); ("Height", PInt (-2)); ("Mode", PInt 6)]%string.
Proof.
  apply (unpack_output_packet_exact ascii_decode sample_fields
           [0x10; 0x27; 0; 0; 0xFE; 0xFF; 6] 7 sample_fields_fixed).
  - apply bytes_are_bytes. reflexivity.
  - reflexivity.
  - simpl. repeat (apply NoDup_cons_2;
                     [rewrite ?elem_of_cons, elem_of_nil; intuition discriminate|]).
    apply NoDup_nil_2.
Defined.

Lemma unpack_output_packet_size_mismatch_witness :
  unpack_output_packet ascii_decode sample_fields
    [0x10; 0x27; 0; 0; 0xFE; 0xFF; 6; 0] 8 = Raise StructError.
Proof.
  apply (unpack_output_packet_size_mismatch ascii_decode sample_fields
           [0x10; 0x27; 0; 0; 0xFE; 0xFF; 6; 0] 8 sample_fields_fixed).
  - apply bytes_are_bytes. reflexivity.
  - intros H. vm_compute in H. discriminate.
Defined.

End Unpack.

(** ** Pending web commands ([RoverDriver.get_web_cmds],
       [RoverDriver.auto_del_timeout_web_cmds]) *)

Module WebCmds.

(** A pending command [{kind : datetime}]: its kind and the time it was
    registered, in microseconds. *)
Definition web_cmd : Type := (string * Z)%type.

(** The test of one loop iteration of [get_web_cmds]: the label returned
    when the entry with key [key] answers a lookup for [cmd_type]. *)
Definition answers (cmd_type key : string) : option string :=
  if String.eqb cmd_type "setUserConfiguration" then
    if String.eqb key "setIMURotationMatrix" then Some "IMURotationMatrix"%string
    else if String.eqb key "setGNSSAntennaLeverArm" then Some "GNSSAntennaLeverArm"%string
    else None
  else if String.eqb key cmd_type then Some cmd_type
  else None.

(** [get_web_cmds]: the value returned and the list left behind; the loop
    deletes the entry it stops on. *)
Fixpoint get_web_cmds (web_cmds : list web_cmd) (cmd_type : string)
  : option string * list web_cmd :=
  match web_cmds with
  | [] => (None, [])
  | cmd :: rest =>
      match answers cmd_type (fst cmd) with
      | Some tp => (Some tp, rest)
      | None =>
          let '(r, rest') := get_web_cmds rest cmd_type in (r, cmd :: rest')
      end
  end.

Definition TIME_OUT : Z := 5.

(** [(now - t).total_seconds() > TIME_OUT], on microsecond counts. *)
Definition timed_out (now : Z) (cmd : web_cmd) : bool :=
  now - snd cmd >? TIME_OUT * 1000000.

(** The [for] loop of one pass of [auto_del_timeout_web_cmds]: a reverse
    iterator over the list that is being shortened.  [i] is the number of
    positions the iterator has still to visit: it yields the entry at
    index [i - 1] if the list still has one, and stops otherwise; the
    body deletes the entry at the index just visited. *)
Fixpoint expire_loop (now : Z) (i : nat) (web_cmds : list web_cmd) : list web_cmd :=
  match i with
  | O => web_cmds
  | S j =>
      match web_cmds !! j with
      | Some cmd =>
          expire_loop now j (if timed_out now cmd then delete j web_cmds else web_cmds)
      | None => web_cmds
      end
  end.

Definition auto_del_pass (now : Z) (web_cmds : list web_cmd) : list web_cmd :=
  expire_loop now (length web_cmds) web_cmds.

(** *** Lookup *)

(** A lookup that finds nothing leaves the list as it is, and it finds
    nothing exactly when no pending entry answers the kind asked for. *)
Theorem get_web_cmds_none (web_cmds : list web_cmd) (cmd_type : string) :
  (fst (get_web_cmds web_cmds cmd_type) = None
   <-> Forall (fun cmd => answers cmd_type (fst cmd) = None) web_cmds)
  /\ (fst (get_web_cmds web_cmds cmd_type) = None ->
      snd (get_web_cmds web_cmds cmd_type) = web_cmds).
Proof.
  induction web_cmds as [|cmd rest [IH1 IH2]]; simpl.
  - repeat split; auto.
  - destruct (answers cmd_type (fst cmd)) as [tp|] eqn:Hans; simpl.
    + split; [split|]; try discriminate.
      intros H. inversion H; congruence.
    + destruct (get_web_cmds rest cmd_type) as [r rest'] eqn:Hget. simpl in *.
      split; [split|].
      * intros Hr. constructor; [assumption | apply IH1; assumption].
      * intros H. inversion H; subst. apply IH1. assumption.
      * intros Hr. f_equal. apply IH2. assumption.
Qed.

(** A lookup that finds something removes the first entry that answers,
    returns its label, and keeps every other entry in order. *)
Theorem get_web_cmds_some (web_cmds : list web_cmd) (cmd_type tp : string) :
  fst (get_web_cmds web_cmds cmd_type) = Some tp ->
  exists (before after : list web_cmd) (cmd : web_cmd),
    web_cmds = before ++ cmd :: after
    /\ Forall (fun c => answers cmd_type (fst c) = None) before
    /\ answers cmd_type (fst cmd) = Some tp
    /\ snd (get_web_cmds web_cmds cmd_type) = before ++ after.
Proof.
  induction web_cmds as [|cmd rest IH]; simpl; [discriminate|].
  destruct (answers cmd_type (fst cmd)) as [tp'|] eqn:Hans; simpl.
  - intros [= ->]. exists [], rest, cmd. repeat split; auto.
  - destruct (get_web_cmds rest cmd_type) as [r rest'] eqn:Hget. simpl in *.
    intros Hr. destruct (IH Hr) as (before & after & c & -> & Hb & Hc & ->).
    exists (cmd :: before), after, c. repeat split; auto.
Qed.

(** Registering a set-lever-arm command and looking up
    [setUserConfiguration]: the entry is found under the label
    [GNSSAntennaLeverArm] and a second lookup finds nothing. *)
Theorem get_web_cmds_register_then_lookup (web_cmds : list web_cmd) (t : Z) :
  Forall (fun c => answers "setUserConfiguration" (fst c) = None) web_cmds ->
  get_web_cmds (web_cmds ++ [("setGNSSAntennaLeverArm"%string, t)]) "setUserConfiguration"
  = (Some "GNSSAntennaLeverArm"%string, web_cmds)
  /\ get_web_cmds web_cmds "setUserConfiguration" = (None, web_cmds).
Proof.
  induction 1 as [|cmd rest Hcmd _ [IH1 IH2]]; simpl.
  - split; reflexivity.
  - rewrite Hcmd, IH1, IH2. split; reflexivity.
Qed.

(** *** Expiry *)

Lemma expire_loop_filter (now : Z) (pre : list web_cmd) :
  forall post : list web_cmd,
    expire_loop now (length pre) (pre ++ post)
    = List.filter (fun c => negb (timed_out now c)) pre ++ post.
Proof.
  induction pre as [|c pre IH] using rev_ind; intros post; [reflexivity|].
  rewrite length_app. simpl length. rewrite Nat.add_1_r. simpl expire_loop.
  rewrite <- app_assoc. simpl app.
  rewrite list_lookup_middle by reflexivity.
  rewrite List.filter_app. simpl List.filter.
  destruct (timed_out now c); simpl.
  - replace (delete (length pre) (pre ++ c :: post)) with (pre ++ post).
    + rewrite IH, app_nil_r. reflexivity.
    + clear. induction pre; simpl; congruence.
  - rewrite IH, <- app_assoc. reflexivity.
Qed.

Lemma expire_pass_filter (now : Z) (web_cmds : list web_cmd) :
  auto_del_pass now web_cmds
  = List.filter (fun c => negb (timed_out now c)) web_cmds.
Proof.
  unfold auto_del_pass.
  rewrite <- (app_nil_r web_cmds) at 2. rewrite expire_loop_filter.
  apply app_nil_r.
Qed.

(** One pass of the expiry task removes exactly the entries older than
    five seconds and keeps the others in their order. *)
Theorem auto_del_pass_filter (now : Z) (web_cmds : list web_cmd) :
  auto_del_pass now web_cmds
  = List.filter (fun c => negb (timed_out now c)) web_cmds.
Proof. apply expire_pass_filter. Qed.

(** A command registered at time [t] is still found five seconds later
    and is gone after a pass run later than that. *)
Theorem pending_command_expiry (web_cmds : list web_cmd) (kind : string) (t now : Z) :
  (now - t <= 5000000 -> In (kind, t) web_cmds ->
   In (kind, t) (auto_del_pass now web_cmds))
  /\ (now - t > 5000000 -> ~ In (kind, t) (auto_del_pass now web_cmds)).
Proof.
  rewrite expire_pass_filter. split.
  - intros Ht Hin. apply List.filter_In. split; [assumption|].
    unfold timed_out, TIME_OUT. simpl snd.
    destruct (Z.gtb_spec (now - t) (5 * 1000000)); [lia | reflexivity].
  - intros Ht Hin. apply List.filter_In in Hin as [_ Hin].
    unfold timed_out, TIME_OUT in Hin. simpl snd in Hin.
    destruct (Z.gtb_spec (now - t) (5 * 1000000)); [discriminate | lia].
Qed.

Definition sample_cmds : list web_cmd :=
  [("queryNTRIPConfiguration", 1000000); ("setIMURotationMatrix", 2000000);
   ("setGNSSAntennaLeverArm", 7000000)]%string.

Lemma get_web_cmds_some_witness :
  exists (before after : list web_cmd) (cmd : web_cmd),
    sample_cmds = before ++ cmd :: after
    /\ Forall (fun c => answers "setUserConfiguration" (fst c) = None) before
    /\ answers "setUserConfiguration" (fst cmd) = Some "IMURotationMatrix"%string
    /\ snd (get_web_cmds sample_cmds "setUserConfiguration") = before ++ after.
Proof.
  apply (get_web_cmds_some sample_cmds "setUserConfiguration" "IMURotationMatrix").
  reflexivity.
Defined.

Lemma get_web_cmds_none_witness :
  snd (get_web_cmds sample_cmds "queryUserConfiguration") = sample_cmds.
Proof.
  apply (get_web_cmds_none sample_cmds "queryUserConfiguration"). reflexivity.
Defined.

Lemma get_web_cmds_register_then_lookup_witness :
  get_web_cmds ([("queryUserConfiguration"%string, 0)]
                  ++ [("setGNSSAntennaLeverArm"%string, 5)]) "setUserConfiguration"
  = (Some "GNSSAntennaLeverArm"%string, [("queryUserConfiguration"%string, 0)])
  /\ get_web_cmds [("queryUserConfiguration"%string, 0)] "setUserConfiguration"
     = (None, [("queryUserConfiguration"%string, 0)]).
Proof.
  apply (get_web_cmds_register_then_lookup [("queryUserConfiguration"%string, 0)] 5).
  repeat constructor.
Defined.

Lemma pending_command_expiry_witness :
  In ("setGNSSAntennaLeverArm"%string, 7000000) (auto_del_pass 8000000 sample_cmds)
  /\ ~ In ("queryNTRIPConfiguration"%string, 1000000) (auto_del_pass 8000000 sample_cmds).
Proof.
  split.
  - apply (pending_command_expiry sample_cmds "setGNSSAntennaLeverArm" 7000000 8000000).
    + lia.
    + simpl; auto.
  - apply (pending_command_expiry sample_cmds "queryNTRIPConfiguration" 1000000 8000000).
    lia.
Defined.

End WebCmds.

(** ** The driver's state, [reinit] and [packet_handler] *)

Module Driver.

#[local] Set Warnings "-inexact-float".

(** A decoded packet: one ordered mapping, or for a variable-length
    message a list of them. *)
Inductive packet : Type :=
| Fixed (d : odict)
| VarLen (groups : list odict).

(** Calls made on the application and on the web clients. *)
Inductive event : Type :=
| AppOnReinit
| AppOnMessage (packet_type : string) (p : packet) (is_var_len : bool)
| ClientOnDriverMessage (client : nat) (message_type packet_type : string)
    (p : packet) (is_var_len : bool).

(** The attributes of the driver that [reinit] touches.  The cache
    [msgs] is shown with the packets [packet_handler] stores in it. *)
Record driver : Type := mk_driver {
  cmt_open : bool;
  data_queue : list Z;
  exit_thread : bool;
  threads : list nat;
  app : bool;
  msgs : gmap string packet;
  connection_status : Z
}.

(** [reinit].  The transport is closed ([communicator] is not among the
    files: closing is taken to leave the link released); [Queue.get] on a
    queue that is not empty takes its oldest element. *)
Definition reinit (d : driver) : driver * list event :=
  (mk_driver false
     (match data_queue d with
      | [] => []
      | _ :: rest => rest
      end)
     false [] (app d) ∅ 0,
   if app d then [AppOnReinit] else []).

Definition TP_KFN : string := "KFN".
Definition TP_CNM : string := "CNM".
Definition TP_GH : string := "GH".
Definition TP_SA : string := "SA".
Definition TP_NCA : string := "NCA".
Definition TP_PID : string := "ProductID".
Definition TP_EV : string := "EngineVersion".
Definition TP_NAV : string := "NAV".
Definition TP_SS : string := "SS".

(** [self.nav_pos_vel_mode] and [self.nav_att_mode]. *)
Definition nav_pos_vel_mode : list (Z * string) :=
  [(0, "INVALID"); (1, "DEAD_RECKON"); (2, "STAND_ALONE");
   (3, "PRECISE_POINT_POSITIONING"); (4, "CODE_DIFF"); (5, "RTK_FLOAT");
   (6, "RTK_FIXED"); (7, "USER_AIDING")]%string.

Definition nav_att_mode : list (Z * string) :=
  [(0, "INVALID"); (1, "COARSE"); (2, "FINE")]%string.

(** The integer a value is equal to as a dictionary key, if any: [2.0]
    finds the entry of [2]. *)
Definition int_key (v : pyval) : option Z :=
  match v with
  | PInt z => Some z
  | PFloat x =>
      match py_int x with
      | Ok z => match py_float z with
                | Ok y => if (y =? x)%float then Some z else None
                | Raise _ => None
                end
      | Raise _ => None
      end
  | _ => None
  end.

(** [table[v]] for a table keyed by integers. *)
Definition table_item (table : list (Z * string)) (v : pyval) : result pyval :=
  match int_key v with
  | Some z =>
      match List.find (fun kv => fst kv =? z) table with
      | Some kv => Ok (PStr (snd kv))
      | None => Raise (KeyError v)
      end
  | None => Raise (KeyError v)
  end.

(** [p[k]] on a packet. *)
Definition packet_item (p : packet) (k : string) : result pyval :=
  match p with
  | Fixed d => odict_item d k
  | VarLen _ => Raise TypeError
  end.

(** [self.msgs[tp][k]]. *)
Definition msgs_item (msgs : gmap string packet) (tp k : string) : result pyval :=
  match msgs !! tp with
  | Some p => packet_item p k
  | None => Raise (KeyError (PStr tp))
  end.

(** The float an argument of a [math] function is converted to. *)
Definition to_float (v : pyval) : result float :=
  match v with
  | PInt z => py_float z
  | PFloat x => Ok x
  | _ => Raise TypeError
  end.

(** [math.sqrt]. *)
Definition math_sqrt (x : float) : result float :=
  let r := sqrt x in
  if is_nan r && negb (is_nan x)
  then Raise (ValueError "math domain error") else Ok r.

(** [a - b] on numbers. *)
Definition py_sub (a b : pyval) : result pyval :=
  match a, b with
  | PInt x, PInt y => Ok (PInt (x - y))
  | _, _ => x ← to_float a; y ← to_float b; mret (PFloat (x - y)%float)
  end.

(** [v * r] for a float [r]. *)
Definition py_mul_float (v : pyval) (r : float) : result pyval :=
  x ← to_float v; mret (PFloat (x * r)%float).

(** [v > 0]. *)
Definition py_positive (v : pyval) : result bool :=
  match v with
  | PInt z => Ok (0 <? z)
  | PFloat x => Ok (0 <? x)%float
  | _ => Raise TypeError
  end.

(** [180/math.pi]. *)
Definition r2d : float := (180 / 0x1.921fb54442d18p+1)%float.

Section WithRuntime.

(** The platform's C [pow], which [math.pow] calls on finite arguments. *)
Variable c_pow : float -> float -> float.

(** [utility.cal_attitude] is not among the files at hand. *)
Variable cal_attitude : pyval -> pyval -> pyval -> pyval -> result (list pyval).

(** [str(v)] and, for text, [int(v)]. *)
Variable py_str : pyval -> string.
Variable int_of_text : pyval -> result Z.

(** [int(v)]. *)
Definition to_int (v : pyval) : result Z :=
  match v with
  | PInt z => Ok z
  | PFloat x => py_int x
  | _ => int_of_text v
  end.

(** [math.pow(v, 2)]: NaN and the infinities are answered without a
    call of [pow]; a result of [pow] that is not finite is an error. *)
Definition math_pow2 (v : pyval) : result float :=
  x ← to_float v;
  if is_nan x then Ok x
  else if is_infinity x then Ok (abs x)
  else
    let r := c_pow x 2 in
    if is_nan r then Raise (ValueError "math domain error")
    else if is_infinity r then
      (if (x =? 0)%float then Raise (ValueError "math domain error")
       else Raise OverflowError)
    else Ok r.

(** [math.sqrt(math.pow(n,2)+math.pow(e,2)+math.pow(d,2))]. *)
Definition rms (n e d : pyval) : result pyval :=
  pn ← math_pow2 n;
  pe ← math_pow2 e;
  pd ← math_pow2 d;
  r ← math_sqrt (pn + pe + pd)%float;
  mret (PFloat r).

(** The body of the NAV branch up to the finished [nav] dictionary. *)
Definition build_nav (msgs : gmap string packet) : result odict :=
  pos_rms_n ← msgs_item msgs TP_CNM "Position RMS-N";
  pos_rms_e ← msgs_item msgs TP_CNM "Position RMS-E";
  pos_rms_d ← msgs_item msgs TP_CNM "Position RMS-D";
  vel_rms_n ← msgs_item msgs TP_CNM "Velocity RMS-N";
  vel_rms_e ← msgs_item msgs TP_CNM "Velocity RMS-E";
  vel_rms_d ← msgs_item msgs TP_CNM "Velocity RMS-D";
  att_rms_n ← msgs_item msgs TP_CNM "Attitude RMS-N";
  att_rms_e ← msgs_item msgs TP_CNM "Attitude RMS-E";
  att_rms_d ← msgs_item msgs TP_CNM "Attitude RMS-D";
  q0 ← msgs_item msgs TP_CNM "Attitude quaternion-Scalar";
  q1 ← msgs_item msgs TP_CNM "Attitude quaternion-X";
  q2 ← msgs_item msgs TP_CNM "Attitude quaternion-Y";
  q3 ← msgs_item msgs TP_CNM "Attitude quaternion-Z";
  euler_angle ← cal_attitude q0 q1 q2 q3;
  system_time ← (v ← msgs_item msgs TP_KFN "System time"; to_int v);
  time_of_week ← msgs_item msgs TP_CNM "Time of week";
  gps_week ← msgs_item msgs TP_CNM "GPS week";
  position_mode ← (v ← msgs_item msgs TP_KFN "Position mode";
                   table_item nav_pos_vel_mode v);
  latitude ← msgs_item msgs TP_CNM "Latitude";
  longitude ← msgs_item msgs TP_CNM "Longitude";
  ellipsoidal_height ← msgs_item msgs TP_CNM "Ellipsoidal height";
  msl_height ← (h ← msgs_item msgs TP_CNM "Ellipsoidal height";
                g ← msgs_item msgs TP_GH "Geoid height";
                py_sub h g);
  position_rms ← rms pos_rms_n pos_rms_e pos_rms_d;
  velocity_mode ← (v ← msgs_item msgs TP_KFN "Velocity mode";
                   table_item nav_pos_vel_mode v);
  vel_n ← msgs_item msgs TP_CNM "Vel N";
  vel_e ← msgs_item msgs TP_CNM "Vel E";
  vel_d ← msgs_item msgs TP_CNM "Vel D";
  velocity_rms ← rms vel_rms_n vel_rms_e vel_rms_d;
  attitude_status ← (v ← msgs_item msgs TP_KFN "Attitude status";
                     table_item nav_att_mode v);
  roll ← (a ← py_index euler_angle 0; py_mul_float a r2d);
  pitch ← (a ← py_index euler_angle 1; py_mul_float a r2d);
  heading ← (a ← py_index euler_angle 2; py_mul_float a r2d);
  attitude_rms ← rms att_rms_n att_rms_e att_rms_d;
  mret [("System time", PInt system_time);
        ("Time of week", time_of_week);
        ("GPS week", gps_week);
        ("Position mode", position_mode);
        ("Latitude", latitude);
        ("Longitude", longitude);
        ("Ellipsoidal height", ellipsoidal_height);
        ("MSL height", msl_height);
        ("Position RMS", position_rms);
        ("Velocity mode", velocity_mode);
        ("Vel N", vel_n);
        ("Vel E", vel_e);
        ("Vel D", vel_d);
        ("Velocity RMS", velocity_rms);
        ("Attitude status", attitude_status);
        ("Roll", roll);
        ("Pitch", pitch);
        ("Heading", heading);
        ("Attitude RMS", attitude_rms)]%string.

(** [1 if packet[k] > 0 else 0]. *)
Definition status_of (p : packet) (k : string) : result pyval :=
  v ← packet_item p k;
  b ← py_positive v;
  mret (PInt (match b with true => 1 | false => 0 end)).

(** The first [if] chain: the cache update, the message type, and the
    packet as the ProductID branch may rewrite it. *)
Definition store_packet (msgs : gmap string packet) (packet_type : string) (p : packet)
  : result (gmap string packet * string * packet) :=
  if String.eqb TP_KFN packet_type then Ok (<[TP_KFN := p]> msgs, "event"%string, p)
  else if String.eqb TP_CNM packet_type then Ok (<[TP_CNM := p]> msgs, "event"%string, p)
  else if String.eqb TP_GH packet_type then Ok (<[TP_GH := p]> msgs, "event"%string, p)
  else if String.eqb TP_SA packet_type then Ok (<[TP_SA := p]> msgs, "event"%string, p)
  else if String.eqb TP_NCA packet_type then Ok (<[TP_NCA := p]> msgs, "event"%string, p)
  else if String.eqb TP_PID packet_type then
    v ← packet_item p "Product ID";
    match v, p with
    | PStr _, _ => Ok (msgs, "queryResponse"%string, p)
    | _, Fixed d =>
        Ok (msgs, "queryResponse"%string,
            Fixed (odict_set d "Product ID" (PStr (py_str v))))
    | _, VarLen _ => Raise TypeError
    end
  else if String.eqb TP_EV packet_type then Ok (msgs, "queryResponse"%string, p)
  else Ok (msgs, "event"%string, p).

(** One notification per web client, in the order of the list. *)
Definition notify (web_clients : list nat) (message_type packet_type : string)
    (p : packet) (is_var_len : bool) : list event :=
  map (fun client => ClientOnDriverMessage client message_type packet_type p is_var_len)
      web_clients.

(** [packet_handler]: the cache and the calls made, when it returns.
    (What a raising call has done before it raised is not tracked.) *)
Definition packet_handler (has_app : bool) (web_clients : list nat)
    (msgs : gmap string packet) (packet_type : string) (p : packet)
    (is_var_len : bool) : result (gmap string packet * list event) :=
  '(msgs1, msg_type, p1) ← store_packet msgs packet_type p;
  let sent := notify web_clients msg_type packet_type p1 is_var_len in
  if bool_decide (is_Some (msgs1 !! TP_KFN)) && bool_decide (is_Some (msgs1 !! TP_CNM))
     && bool_decide (is_Some (msgs1 !! TP_GH)) && String.eqb TP_CNM packet_type
  then
    nav ← build_nav msgs1;
    mret (msgs1,
          sent ++ (if has_app then [AppOnMessage TP_NAV (Fixed nav) false] else [])
               ++ notify web_clients "event" TP_NAV (Fixed nav) false)
  else if String.eqb TP_SA packet_type then
    imu ← status_of p1 "IMU message count";
    gnss ← status_of p1 "GNSS message count";
    pps ← status_of p1 "PPS count";
    let data := [("IMU Status", imu); ("GNSS Status", gnss); ("PPS Status", pps);
                 ("NTRIP Status", PInt 0)]%string in
    mret (<[TP_SS := Fixed data]> msgs1,
          sent ++ (if has_app then [AppOnMessage TP_SS (Fixed data) false] else [])
               ++ notify web_clients "event" TP_SS (Fixed data) false)
  else if String.eqb TP_NCA packet_type then
    ntrip ← status_of p1 "NTRIP message size";
    let data := [("IMU Status", PInt 0); ("GNSS Status", PInt 0); ("PPS Status", PInt 0);
                 ("NTRIP Status", ntrip)]%string in
    mret (<[TP_SS := Fixed data]> msgs1,
          sent ++ (if has_app then [AppOnMessage TP_SS (Fixed data) false] else [])
               ++ notify web_clients "event" TP_SS (Fixed data) false)
  else mret (msgs1, sent).

(** *** Packets that trigger no synthesis *)

Lemma eqb_neq (a b : string) : a <> b -> String.eqb a b = false.
Proof. intros H. destruct (String.eqb_spec a b); [contradiction | reflexivity]. Qed.

(** A packet that is none of CNM, SA, NCA and ProductID is handled
    without fault: KFN and GH replace their cache entry, nothing else is
    cached, and the only calls are one notification per web client, of
    type [queryResponse] for EngineVersion and [event] otherwise. *)
Theorem packet_handler_plain (has_app : bool) (web_clients : list nat)
    (msgs : gmap string packet) (packet_type : string) (p : packet)
    (is_var_len : bool) :
  packet_type <> TP_CNM -> packet_type <> TP_SA -> packet_type <> TP_NCA ->
  packet_type <> TP_PID ->
  packet_handler has_app web_clients msgs packet_type p is_var_len
  = Ok (if String.eqb packet_type TP_KFN || String.eqb packet_type TP_GH
        then <[packet_type := p]> msgs else msgs,
        notify web_clients
          (if String.eqb packet_type TP_EV then "queryResponse" else "event")
          packet_type p is_var_len).
Proof.
  intros Hcnm Hsa Hnca Hpid. unfold packet_handler, store_packet.
  rewrite (String.eqb_sym TP_CNM), (String.eqb_sym TP_SA), (String.eqb_sym TP_NCA),
    (String.eqb_sym TP_PID), (String.eqb_sym TP_KFN), (String.eqb_sym TP_GH),
    (String.eqb_sym TP_EV).
  rewrite (eqb_neq _ _ Hcnm), (eqb_neq _ _ Hsa), (eqb_neq _ _ Hnca), (eqb_neq _ _ Hpid).
  destruct (String.eqb_spec packet_type TP_KFN) as [->|_];
    [| destruct (String.eqb_spec packet_type TP_GH) as [->|_];
       [| destruct (String.eqb_spec packet_type TP_EV) as [->|_] ] ];
    cbn [mbind result_bind mret result_ret orb];
    rewrite ?andb_false_r; reflexivity.
Qed.

(** A CNM packet handled while KFN or GH is not cached is stored and
    passed on to the web clients; no NAV packet is built. *)
Theorem packet_handler_cnm_without_nav (has_app : bool) (web_clients : list nat)
    (msgs : gmap string packet) (p : packet) (is_var_len : bool) :
  msgs !! TP_KFN = None \/ msgs !! TP_GH = None ->
  packet_handler has_app web_clients msgs TP_CNM p is_var_len
  = Ok (<[TP_CNM := p]> msgs, notify web_clients "event" TP_CNM p is_var_len).
Proof.
  intros H. unfold packet_handler, store_packet.
  change (String.eqb TP_KFN TP_CNM) with false.
  change (String.eqb TP_CNM TP_CNM) with true.
  change (String.eqb TP_SA TP_CNM) with false.
  change (String.eqb TP_NCA TP_CNM) with false.
  cbn [mbind result_bind mret result_ret].
  rewrite (lookup_insert_ne msgs TP_CNM TP_KFN) by discriminate.
  rewrite (lookup_insert_ne msgs TP_CNM TP_GH) by discriminate.
  destruct H as [H | H]; rewrite H;
    rewrite (bool_decide_eq_false_2 (is_Some None)) by (intros [? ?]; discriminate);
    rewrite ?andb_false_r; reflexivity.
Qed.

(** *** Subsystem status *)

(** An SA packet whose three counters are integers: the packet is cached,
    and an SS packet with each status 1 for a positive counter and 0
    otherwise, and NTRIP status 0, is cached under SS and sent to the
    application (if any) and to every web client. *)
Theorem packet_handler_sa (has_app : bool) (web_clients : list nat)
    (msgs : gmap string packet) (d : odict) (is_var_len : bool) (imu gnss pps : Z) :
  odict_get d "IMU message count" = Some (PInt imu) ->
  odict_get d "GNSS message count" = Some (PInt gnss) ->
  odict_get d "PPS count" = Some (PInt pps) ->
  let ss := Fixed [("IMU Status", PInt (if 0 <? imu then 1 else 0)%Z);
                   ("GNSS Status", PInt (if 0 <? gnss then 1 else 0)%Z);
                   ("PPS Status", PInt (if 0 <? pps then 1 else 0)%Z);
                   ("NTRIP Status", PInt 0)]%string in
  packet_handler has_app web_clients msgs TP_SA (Fixed d) is_var_len
  = Ok (<[TP_SS := ss]> (<[TP_SA := Fixed d]> msgs),
        notify web_clients "event" TP_SA (Fixed d) is_var_len
          ++ (if has_app then [AppOnMessage TP_SS ss false] else [])
          ++ notify web_clients "event" TP_SS ss false).
Proof.
  intros Himu Hgnss Hpps ss. unfold packet_handler, store_packet.
  change (String.eqb TP_KFN TP_SA) with false.
  change (String.eqb TP_CNM TP_SA) with false.
  change (String.eqb TP_GH TP_SA) with false.
  change (String.eqb TP_SA TP_SA) with true.
  cbn [mbind result_bind mret result_ret]. rewrite !andb_false_r.
  unfold status_of, packet_item, odict_item. rewrite Himu, Hgnss, Hpps.
  cbn [mbind result_bind mret result_ret py_positive].
  subst ss. destruct (0 <? imu), (0 <? gnss), (0 <? pps); reflexivity.
Qed.

(** An NCA packet: the SS packet it triggers has the three sensor
    statuses at 0, whatever an earlier SA packet reported. *)
Theorem packet_handler_nca (has_app : bool) (web_clients : list nat)
    (msgs : gmap string packet) (d : odict) (is_var_len : bool) (size : Z) :
  odict_get d "NTRIP message size" = Some (PInt size) ->
  let ss := Fixed [("IMU Status", PInt 0); ("GNSS Status", PInt 0);
                   ("PPS Status", PInt 0);
                   ("NTRIP Status", PInt (if 0 <? size then 1 else 0)%Z)]%string in
  packet_handler has_app web_clients msgs TP_NCA (Fixed d) is_var_len
  = Ok (<[TP_SS := ss]> (<[TP_NCA := Fixed d]> msgs),
        notify web_clients "event" TP_NCA (Fixed d) is_var_len
          ++ (if has_app then [AppOnMessage TP_SS ss false] else [])
          ++ notify web_clients "event" TP_SS ss false).
Proof.
  intros Hsize ss. unfold packet_handler, store_packet.
  change (String.eqb TP_KFN TP_NCA) with false.
  change (String.eqb TP_CNM TP_NCA) with false.
  change (String.eqb TP_GH TP_NCA) with false.
  change (String.eqb TP_SA TP_NCA) with false.
  change (String.eqb TP_NCA TP_NCA) with true.
  cbn [mbind result_bind mret result_ret]. rewrite !andb_false_r.
  unfold status_of, packet_item, odict_item. rewrite Hsize.
  cbn [mbind result_bind mret result_ret py_positive].
  subst ss. destruct (0 <? size); reflexivity.
Qed.

(** *** Navigation summary *)

(** The packet [d] has the value [v] under the key [k]. *)
Definition has (d : odict) (k : string) (v : pyval) : Prop := odict_get d k = Some v.

(** The three components are finite, so are their squares as [pow]
    returns them, and the root of their sum is a number. *)
Definition squares_ok (x y z : float) : bool :=
  is_finite x && is_finite y && is_finite z
  && is_finite (c_pow x 2) && is_finite (c_pow y 2) && is_finite (c_pow z 2)
  && negb (is_nan (sqrt (c_pow x 2 + c_pow y 2 + c_pow z 2))).

Lemma finite_cases (x : float) :
  is_finite x = true -> is_nan x = false /\ is_infinity x = false.
Proof.
  unfold is_finite. destruct (is_nan x), (is_infinity x); simpl; intros H;
    try discriminate; auto.
Qed.

Lemma rms_finite (x y z : float) :
  squares_ok x y z = true ->
  rms (PFloat x) (PFloat y) (PFloat z)
  = Ok (PFloat (sqrt (c_pow x 2 + c_pow y 2 + c_pow z 2))).
Proof.
  unfold squares_ok. rewrite !andb_true_iff.
  intros [[[[[[Hx Hy] Hz] Hpx] Hpy] Hpz] Hs].
  apply finite_cases in Hx as [Hx1 Hx2]. apply finite_cases in Hy as [Hy1 Hy2].
  apply finite_cases in Hz as [Hz1 Hz2]. apply finite_cases in Hpx as [Hpx1 Hpx2].
  apply finite_cases in Hpy as [Hpy1 Hpy2]. apply finite_cases in Hpz as [Hpz1 Hpz2].
  apply negb_true_iff in Hs.
  unfold rms, math_pow2, to_float. cbn [mbind result_bind mret result_ret].
  rewrite Hx1, Hx2, Hpx1, Hpx2. cbn [mbind result_bind mret result_ret].
  rewrite Hy1, Hy2, Hpy1, Hpy2. cbn [mbind result_bind mret result_ret].
  rewrite Hz1, Hz2, Hpz1, Hpz2. cbn [mbind result_bind mret result_ret].
  unfold math_sqrt. rewrite Hs. reflexivity.
Qed.

Lemma pos_vel_mode_item (v : pyval) (z : Z) (label : string) :
  int_key v = Some z -> In (z, label) nav_pos_vel_mode ->
  table_item nav_pos_vel_mode v = Ok (PStr label).
Proof.
  intros Hk Hin. unfold table_item. rewrite Hk.
  unfold nav_pos_vel_mode in *. simpl in Hin.
  repeat (destruct Hin as [Hin | Hin]; [injection Hin as <- <-; reflexivity|]).
  contradiction.
Qed.

Lemma att_mode_item (v : pyval) (z : Z) (label : string) :
  int_key v = Some z -> In (z, label) nav_att_mode ->
  table_item nav_att_mode v = Ok (PStr label).
Proof.
  intros Hk Hin. unfold table_item. rewrite Hk.
  unfold nav_att_mode in *. simpl in Hin.
  repeat (destruct Hin as [Hin | Hin]; [injection Hin as <- <-; reflexivity|]).
  contradiction.
Qed.

(** A CNM packet handled while KFN and GH are cached, all three carrying
    the fields read: the CNM packet is cached and passed on, and a NAV
    packet is sent to the application (if any) and to every web client.
    Its System time is KFN's converted to an integer, its modes are the
    table names of KFN's codes, its MSL height is the ellipsoidal height
    less the geoid height, and each RMS is the root of the sum of the
    squares of the three components. *)
Theorem packet_handler_nav (has_app : bool) (web_clients : list nat)
    (msgs : gmap string packet) (kfn cnm gh : odict) (is_var_len : bool)
    (st pmv vmv amv q0 q1 q2 q3 tow week lat lon vel_n vel_e vel_d : pyval)
    (t pm vm am : Z) (pos_label vel_label att_label : string)
    (pn pe pd vn ve vd an ae ad h g e0 e1 e2 : float) :
  msgs !! TP_KFN = Some (Fixed kfn) ->
  msgs !! TP_GH = Some (Fixed gh) ->
  has kfn "System time" st -> to_int st = Ok t ->
  has kfn "Position mode" pmv -> int_key pmv = Some pm ->
  In (pm, pos_label) nav_pos_vel_mode ->
  has kfn "Velocity mode" vmv -> int_key vmv = Some vm ->
  In (vm, vel_label) nav_pos_vel_mode ->
  has kfn "Attitude status" amv -> int_key amv = Some am ->
  In (am, att_label) nav_att_mode ->
  has gh "Geoid height" (PFloat g) ->
  has cnm "Position RMS-N" (PFloat pn) ->
  has cnm "Position RMS-E" (PFloat pe) ->
  has cnm "Position RMS-D" (PFloat pd) ->
  has cnm "Velocity RMS-N" (PFloat vn) ->
  has cnm "Velocity RMS-E" (PFloat ve) ->
  has cnm "Velocity RMS-D" (PFloat vd) ->
  has cnm "Attitude RMS-N" (PFloat an) ->
  has cnm "Attitude RMS-E" (PFloat ae) ->
  has cnm "Attitude RMS-D" (PFloat ad) ->
  has cnm "Attitude quaternion-Scalar" (q0) ->
  has cnm "Attitude quaternion-X" (q1) ->
  has cnm "Attitude quaternion-Y" (q2) ->
  has cnm "Attitude quaternion-Z" (q3) ->
  has cnm "Time of week" (tow) ->
  has cnm "GPS week" (week) ->
  has cnm "Latitude" (lat) ->
  has cnm "Longitude" (lon) ->
  has cnm "Ellipsoidal height" (PFloat h) ->
  has cnm "Vel N" (vel_n) ->
  has cnm "Vel E" (vel_e) ->
  has cnm "Vel D" (vel_d) ->
  squares_ok pn pe pd = true ->
  squares_ok vn ve vd = true ->
  squares_ok an ae ad = true ->
  cal_attitude q0 q1 q2 q3 = Ok [PFloat e0; PFloat e1; PFloat e2] ->
  let nav :=
    Fixed [("System time", PInt t);
           ("Time of week", tow);
           ("GPS week", week);
           ("Position mode", PStr pos_label);
           ("Latitude", lat);
           ("Longitude", lon);
           ("Ellipsoidal height", PFloat h);
           ("MSL height", PFloat (h - g)%float);
           ("Position RMS",
            PFloat (sqrt (c_pow pn 2 + c_pow pe 2 + c_pow pd 2))%float);
           ("Velocity mode", PStr vel_label);
           ("Vel N", vel_n);
           ("Vel E", vel_e);
           ("Vel D", vel_d);
           ("Velocity RMS",
            PFloat (sqrt (c_pow vn 2 + c_pow ve 2 + c_pow vd 2))%float);
           ("Attitude status", PStr att_label);
           ("Roll", PFloat (e0 * r2d)%float);
           ("Pitch", PFloat (e1 * r2d)%float);
           ("Heading", PFloat (e2 * r2d)%float);
           ("Attitude RMS",
            PFloat (sqrt (c_pow an 2 + c_pow ae 2 + c_pow ad 2))%float)]%string in
  packet_handler has_app web_clients msgs TP_CNM (Fixed cnm) is_var_len
  = Ok (<[TP_CNM := Fixed cnm]> msgs,
        notify web_clients "event" TP_CNM (Fixed cnm) is_var_len
          ++ (if has_app then [AppOnMessage TP_NAV nav false] else [])
          ++ notify web_clients "event" TP_NAV nav false).
Proof.
  intros Hkfn Hgh.
  unfold has. intros.
  unfold packet_handler, store_packet.
  change (String.eqb TP_KFN TP_CNM) with false.
  change (String.eqb TP_CNM TP_CNM) with true.
  cbn [mbind result_bind mret result_ret].
  assert (Hk : <[TP_CNM := Fixed cnm]> msgs !! TP_KFN = Some (Fixed kfn))
    by (rewrite lookup_insert_ne by discriminate; exact Hkfn).
  assert (Hg : <[TP_CNM := Fixed cnm]> msgs !! TP_GH = Some (Fixed gh))
    by (rewrite lookup_insert_ne by discriminate; exact Hgh).
  assert (Hc : <[TP_CNM := Fixed cnm]> msgs !! TP_CNM = Some (Fixed cnm))
    by apply lookup_insert_eq.
  rewrite Hk, Hg, Hc.
  rewrite !(bool_decide_eq_true_2 (is_Some (Some _))) by eauto.
  cbn [andb].
  unfold build_nav, msgs_item. rewrite Hk, Hg, Hc.
  unfold packet_item, odict_item.
  repeat match goal with
         | H : odict_get _ _ = Some _ |- _ => rewrite H; clear H
         end.
  cbn [mbind result_bind mret result_ret].
  repeat match goal with
         | H : cal_attitude _ _ _ _ = Ok _ |- _ => rewrite H; clear H
         | H : to_int _ = Ok _ |- _ => rewrite H; clear H
         end.
  cbn [mbind result_bind mret result_ret].
  rewrite (pos_vel_mode_item pmv pm pos_label) by assumption.
  rewrite (pos_vel_mode_item vmv vm vel_label) by assumption.
  rewrite (att_mode_item amv am att_label) by assumption.
  rewrite !rms_finite by assumption.
  reflexivity.
Qed.

End WithRuntime.

(** [reinit] takes at most the oldest byte off the queue: the queue is
    empty afterwards only if it held at most one byte.  The cache is
    emptied, the flags are reset and the application is called. *)
Theorem reinit_effects (d : driver) :
  data_queue (fst (reinit d)) = drop 1 (data_queue d)
  /\ (data_queue (fst (reinit d)) = [] <-> (length (data_queue d) <= 1)%nat)
  /\ msgs (fst (reinit d)) = ∅
  /\ connection_status (fst (reinit d)) = 0
  /\ exit_thread (fst (reinit d)) = false
  /\ cmt_open (fst (reinit d)) = false
  /\ threads (fst (reinit d)) = []
  /\ snd (reinit d) = (if app d then [AppOnReinit] else []).
Proof.
  unfold reinit. simpl. destruct (data_queue d) as [|b [|b' rest]]; simpl;
    repeat split; auto; try lia; try discriminate.
Qed.

(** *** Concrete runs *)

(** A runtime to run the handler on concrete packets: squares rounded to
    nearest for [pow(x, 2)], level attitude, and no text conversions. *)
Definition sample_pow (x y : float) : float := (x * x)%float.
Definition sample_attitude (q0 q1 q2 q3 : pyval) : result (list pyval) :=
  Ok [PFloat 0; PFloat 0; PFloat 0].
Definition sample_str (v : pyval) : string := "".
Definition sample_int_of_text (v : pyval) : result Z :=
  Raise (ValueError "invalid literal for int()").

Definition sample_kfn : odict :=
  [("System time", PFloat 100); ("Position mode", PInt 2);
   ("Velocity mode", PInt 2); ("Attitude status", PInt 2)]%string.

Definition sample_gh : odict := [("Geoid height", PFloat 10)]%string.

Definition sample_cnm : odict :=
  [("System time", PFloat 100); ("Time of week", PFloat 1000); ("GPS week", PInt 2050);
   ("Latitude", PFloat 31.5); ("Longitude", PFloat 120.25);
   ("Ellipsoidal height", PFloat 110);
   ("Vel N", PFloat 1); ("Vel E", PFloat 0); ("Vel D", PFloat 0);
   ("Attitude quaternion-Scalar", PFloat 1); ("Attitude quaternion-X", PFloat 0);
   ("Attitude quaternion-Y", PFloat 0); ("Attitude quaternion-Z", PFloat 0);
   ("Position RMS-N", PFloat 0.3); ("Position RMS-E", PFloat 0.4);
   ("Position RMS-D", PFloat 0);
   ("Velocity RMS-N", PFloat 0); ("Velocity RMS-E", PFloat 0);
   ("Velocity RMS-D", PFloat 0);
   ("Attitude RMS-N", PFloat 0); ("Attitude RMS-E", PFloat 0);
   ("Attitude RMS-D", PFloat 0)]%string.

Definition sample_msgs : gmap string packet :=
  <[TP_KFN := Fixed sample_kfn]> (<[TP_GH := Fixed sample_gh]> ∅).

Definition sample_handler :=
  packet_handler sample_pow sample_attitude sample_str sample_int_of_text.

Lemma packet_handler_nav_witness :
  exists (ev : list event) (nav : odict),
    sample_handler true [7%nat] sample_msgs TP_CNM (Fixed sample_cnm) false
    = Ok (<[TP_CNM := Fixed sample_cnm]> sample_msgs, ev)
    /\ In (AppOnMessage TP_NAV (Fixed nav) false) ev
    /\ odict_get nav "System time" = Some (PInt 100)
    /\ odict_get nav "Position mode" = Some (PStr "STAND_ALONE")
    /\ odict_get nav "Position RMS" = Some (PFloat 0.5)
    /\ odict_get nav "MSL height" = Some (PFloat 100).
Proof.
  eexists. eexists. split.
  - unfold sample_handler.
    eapply (packet_handler_nav sample_pow sample_attitude sample_str
              sample_int_of_text true [7%nat] sample_msgs sample_kfn sample_cnm
              sample_gh false);
      try reflexivity;
      try (simpl; repeat (first [left; reflexivity | right])).
  - split; [simpl; right; left; reflexivity|].
    repeat split; vm_compute; reflexivity.
Defined.

Lemma packet_handler_plain_witness :
  sample_handler true [7%nat; 8%nat] ∅ TP_GH (Fixed sample_gh) false
  = Ok (<[TP_GH := Fixed sample_gh]> ∅,
        [ClientOnDriverMessage 7 "event" TP_GH (Fixed sample_gh) false;
         ClientOnDriverMessage 8 "event" TP_GH (Fixed sample_gh) false]).
Proof.
  apply (packet_handler_plain sample_pow sample_attitude sample_str
           sample_int_of_text true [7%nat; 8%nat] ∅ TP_GH (Fixed sample_gh) false);
    discriminate.
Defined.

Lemma packet_handler_cnm_without_nav_witness :
  sample_handler true [7%nat] (<[TP_KFN := Fixed sample_kfn]> ∅) TP_CNM
    (Fixed sample_cnm) false
  = Ok (<[TP_CNM := Fixed sample_cnm]> (<[TP_KFN := Fixed sample_kfn]> ∅),
        [ClientOnDriverMessage 7 "event" TP_CNM (Fixed sample_cnm) false]).
Proof.
  apply (packet_handler_cnm_without_nav sample_pow sample_attitude sample_str
           sample_int_of_text true [7%nat] (<[TP_KFN := Fixed sample_kfn]> ∅)
           (Fixed sample_cnm) false).
  right. reflexivity.
Defined.

Definition sample_sa : odict :=
  [("IMU message count", PInt 200); ("GNSS message count", PInt 0);
   ("PPS count", PInt 1)]%string.

Lemma packet_handler_sa_witness :
  exists ev : list event,
    sample_handler false [7%nat] ∅ TP_SA (Fixed sample_sa) false
    = Ok (<[TP_SS := Fixed [("IMU Status", PInt 1); ("GNSS Status", PInt 0);
                            ("PPS Status", PInt 1); ("NTRIP Status", PInt 0)]%string]>
            (<[TP_SA := Fixed sample_sa]> ∅), ev).
Proof.
  eexists.
  apply (packet_handler_sa sample_pow sample_attitude sample_str
           sample_int_of_text false [7%nat] ∅ sample_sa false 200 0 1);
    reflexivity.
Defined.

Lemma packet_handler_nca_witness :
  exists ev : list event,
    sample_handler false [7%nat] ∅ TP_NCA
      (Fixed [("NTRIP message size", PInt 512)]%string) false
    = Ok (<[TP_SS := Fixed [("IMU Status", PInt 0); ("GNSS Status", PInt 0);
                            ("PPS Status", PInt 0); ("NTRIP Status", PInt 1)]%string]>
            (<[TP_NCA := Fixed [("NTRIP message size", PInt 512)]%string]> ∅), ev).
Proof.
  eexists.
  apply (packet_handler_nca sample_pow sample_attitude sample_str
           sample_int_of_text false [7%nat] ∅
           [("NTRIP message size", PInt 512)]%string false 512).
  reflexivity.
Defined.

End Driver.

(** ** The CSV logger ([file_storage.RoverLogApp.log]) *)

Module CsvLog.

(** An entry of [rover_properties['userMessages']['outputPackets']]. *)
Record output_packet : Type := mk_output_packet {
  op_name : string;
  op_payload : list Unpack.field
}.

(** The logger's bookkeeping: the row counters and, for each open file,
    the text written to it so far. *)
Record logger : Type := mk_logger {
  first_row : gmap string Z;
  log_files : gmap string string
}.

(** [s[:-1]]. *)
Fixpoint drop_last (s : string) : string :=
  match s with
  | EmptyString => EmptyString
  | String c rest =>
      match rest with
      | EmptyString => EmptyString
      | String _ _ => String c (drop_last rest)
      end
  end.

Definition newline : string := String (ascii_of_nat 10) EmptyString.

Section WithFormat.

(** The catalog the logger loaded, and [format(v, spec)] of Python. *)
Variable catalog : list output_packet.
Variable py_format : string -> pyval -> result string.

(** [next((x for x in outputPackets if x['name'] == packet_type), None)]. *)
Definition find_packet (packet_type : string) : option output_packet :=
  List.find (fun x => String.eqb (op_name x) packet_type) catalog.

(** [output_packet['payload'][keyIdx]]. *)
Definition payload_field (op : option output_packet) (keyIdx : nat)
  : result Unpack.field :=
  match op with
  | None => Raise TypeError
  | Some x => py_index (op_payload x) keyIdx
  end.

(** The loop that builds [labels]: one catalog name and a comma per key
    of [data]. *)
Fixpoint labels_loop (op : option output_packet) (data : odict) (keyIdx : nat)
    (labels : string) : result string :=
  match data with
  | [] => Ok labels
  | _ :: rest =>
      match payload_field op keyIdx with
      | Ok f => labels_loop op rest (S keyIdx) (labels ++ (Unpack.name f ++ ","))%string
      | Raise e => Raise e
      end
  end.

(** The chain of tests on the declared type: the text of one field. *)
Definition format_value (t : string) (v : pyval) : result string :=
  if String.eqb t "uint32" || String.eqb t "int32" || String.eqb t "uint16"
     || String.eqb t "int16" || String.eqb t "uint64" || String.eqb t "int64"
  then py_format "d" v
  else if String.eqb t "double" then py_format "15.12f" v
  else if String.eqb t "float" then py_format "12.8f" v
  else if String.eqb t "uint8" then py_format "d" v
  else if String.eqb t "uchar" || String.eqb t "char" then py_format "" v
  else py_format "3.5f" v.

(** The loop that builds [str]: the values of [data] in order, each a
    dictionary value under its own key. *)
Fixpoint line_loop (op : option output_packet) (data : odict) (keyIdx : nat)
    (str : string) : result string :=
  match data with
  | [] => Ok str
  | (_, v) :: rest =>
      match payload_field op keyIdx with
      | Ok f =>
          match format_value (Unpack.type f) v with
          | Ok cell => line_loop op rest (S keyIdx) (str ++ (cell ++ ","))%string
          | Raise e => Raise e
          end
      | Raise e => Raise e
      end
  end.

Definition with_first_row (st : logger) (packet_type : string) (n : Z) : logger :=
  mk_logger (<[packet_type := n]> (first_row st)) (log_files st).

Definition write (st : logger) (packet_type : string) (content text : string) : logger :=
  mk_logger (first_row st) (<[packet_type := (content ++ text)%string]> (log_files st)).

(** [log]: the logger as the call leaves it, and the outcome. *)
Definition log (st : logger) (data : odict) (packet_type : string)
  : logger * result unit :=
  let output_packet := find_packet packet_type in
  match first_row st !! packet_type with
  | None => (st, Raise (KeyError (PStr packet_type)))
  | Some n =>
      let st1 := with_first_row st packet_type (if n =? 0 then 1 else n + 1) in
      match (if n =? 0 then
               match labels_loop output_packet data 0 "" with
               | Ok labels => Ok (drop_last labels ++ newline)%string
               | Raise e => Raise e
               end
             else Ok EmptyString) with
      | Raise e => (st1, Raise e)
      | Ok header =>
          match line_loop output_packet data 0 "" with
          | Raise e => (st1, Raise e)
          | Ok str =>
              match log_files st1 !! packet_type with
              | None => (st1, Raise (KeyError (PStr packet_type)))
              | Some content =>
                  (write st1 packet_type content
                     (header ++ (drop_last str ++ newline))%string, Ok tt)
              end
          end
      end
  end.

(** *** Rows as the file shows them *)

(** The header row: the first [n] catalog names, comma-joined. *)
Definition header_row (fields : list Unpack.field) (n : nat) : string :=
  (String.concat "," (map Unpack.name (take n fields)) ++ newline)%string.

(** The cells of a data row: each value formatted by the type of the
    catalog field at its position. *)
Fixpoint cells (fields : list Unpack.field) (data : odict) {struct data}
  : result (list string) :=
  match data with
  | [] => Ok []
  | (_, v) :: rest =>
      match fields with
      | [] => Raise IndexError
      | f :: fields' =>
          match format_value (Unpack.type f) v with
          | Ok cell =>
              match cells fields' rest with
              | Ok cs => Ok (cell :: cs)
              | Raise e => Raise e
              end
          | Raise e => Raise e
          end
      end
  end.

Definition data_row (cs : list string) : string :=
  (String.concat "," cs ++ newline)%string.

(** *** Strings *)

Lemma string_app_assoc (a b c : string) : ((a ++ b) ++ c)%string = (a ++ (b ++ c))%string.
Proof.
  induction a as [|x a IH]; [reflexivity|].
  change (String x ((a ++ b) ++ c)%string = String x (a ++ (b ++ c))%string).
  rewrite IH. reflexivity.
Qed.

Lemma string_app_nil_l (a : string) : ("" ++ a)%string = a.
Proof. reflexivity. Qed.

Lemma string_app_nil_r (a : string) : (a ++ "")%string = a.
Proof.
  induction a as [|x a IH]; [reflexivity|].
  change (String x (a ++ "")%string = String x a). rewrite IH. reflexivity.
Qed.

Lemma drop_last_app (a b : string) :
  b <> EmptyString -> drop_last (a ++ b) = (a ++ drop_last b)%string.
Proof.
  intros Hb. induction a as [|x a IH]; [reflexivity|].
  change (drop_last (String x (a ++ b)%string) = String x (a ++ drop_last b)%string).
  simpl drop_last. destruct (a ++ b)%string as [|y r] eqn:Hab.
  - destruct a; [simpl in Hab; contradiction | discriminate Hab].
  - rewrite <- IH. reflexivity.
Qed.

(** Cells each followed by a comma, as the loops build them. *)
Fixpoint with_commas (cs : list string) : string :=
  match cs with
  | [] => EmptyString
  | c :: rest => (c ++ ("," ++ with_commas rest))%string
  end.

Lemma with_commas_nonempty (c : string) (rest : list string) :
  with_commas (c :: rest) <> EmptyString.
Proof.
  simpl. destruct c; [|discriminate].
  change ("" ++ ("," ++ with_commas rest))%string
    with (String "," (with_commas rest)). discriminate.
Qed.

(** Dropping the last comma leaves the cells comma-joined. *)
Lemma drop_last_with_commas (cs : list string) :
  drop_last (with_commas cs) = String.concat "," cs.
Proof.
  induction cs as [|c [|c' rest] IH]; [reflexivity| |].
  - simpl with_commas. rewrite drop_last_app by discriminate.
    change (drop_last ("," ++ "")%string) with EmptyString.
    rewrite string_app_nil_r. reflexivity.
  - change (with_commas (c :: c' :: rest))
      with (c ++ ("," ++ with_commas (c' :: rest)))%string.
    rewrite drop_last_app.
    2:{ change ("," ++ with_commas (c' :: rest))%string
          with (String "," (with_commas (c' :: rest))). discriminate. }
    change ("," ++ with_commas (c' :: rest))%string
      with (String "," (with_commas (c' :: rest))).
    assert (Hd : forall w : string, w <> EmptyString ->
                 drop_last (String "," w) = String "," (drop_last w)).
    { intros w Hw. destruct w; [contradiction | reflexivity]. }
    rewrite Hd by apply with_commas_nonempty.
    rewrite IH. reflexivity.
Qed.

(** *** The two loops *)

Lemma labels_loop_spec (x : output_packet) (data : odict) :
  forall (k : nat) (labels : string),
    (length data <= length (drop k (op_payload x)))%nat ->
    labels_loop (Some x) data k labels
    = Ok (labels ++ with_commas
                      (map Unpack.name (take (length data) (drop k (op_payload x)))))%string.
Proof.
  induction data as [|kv data IH]; intros k labels Hlen.
  - simpl. rewrite string_app_nil_r. reflexivity.
  - simpl length in *. simpl labels_loop. unfold py_index.
    destruct (drop k (op_payload x)) as [|f rest] eqn:Hdrop; [simpl in Hlen; lia|].
    assert (Hk : op_payload x !! k = Some f).
    { rewrite <- (Nat.add_0_r k), <- lookup_drop, Hdrop. reflexivity. }
    assert (Hrest : drop (S k) (op_payload x) = rest).
    { replace (S k) with (k + 1)%nat by lia.
      rewrite <- drop_drop, Hdrop. reflexivity. }
    rewrite Hk. rewrite IH by (rewrite Hrest; simpl in Hlen; lia).
    rewrite Hrest. simpl take. simpl map. simpl with_commas.
    rewrite !string_app_assoc. reflexivity.
Qed.

Lemma labels_loop_overrun (x : output_packet) (data : odict) :
  forall (k : nat) (labels : string),
    (length (drop k (op_payload x)) < length data)%nat ->
    labels_loop (Some x) data k labels = Raise IndexError.
Proof.
  induction data as [|kv data IH]; intros k labels Hlen; [simpl in Hlen; lia|].
  simpl length in *. simpl labels_loop. unfold py_index.
  destruct (op_payload x !! k) as [f|] eqn:Hk; [|reflexivity].
  apply IH. rewrite length_drop in *. apply lookup_lt_Some in Hk. lia.
Qed.

Lemma line_loop_spec (x : output_packet) (data : odict) :
  forall (k : nat) (str : string) (cs : list string),
    cells (drop k (op_payload x)) data = Ok cs ->
    line_loop (Some x) data k str = Ok (str ++ with_commas cs)%string.
Proof.
  induction data as [|[key v] data IH]; intros k str cs Hcells.
  - simpl in Hcells. injection Hcells as <-. simpl.
    rewrite string_app_nil_r. reflexivity.
  - simpl in Hcells. simpl line_loop. unfold py_index.
    destruct (drop k (op_payload x)) as [|f rest] eqn:Hdrop; [discriminate|].
    assert (Hk : op_payload x !! k = Some f).
    { rewrite <- (Nat.add_0_r k), <- lookup_drop, Hdrop. reflexivity. }
    assert (Hrest : drop (S k) (op_payload x) = rest).
    { replace (S k) with (k + 1)%nat by lia.
      rewrite <- drop_drop, Hdrop. reflexivity. }
    rewrite Hk.
    destruct (format_value (Unpack.type f) v) as [cell|]; [|discriminate].
    destruct (cells rest data) as [cs'|] eqn:Hcs; [|discriminate].
    injection Hcells as <-.
    rewrite (IH (S k) _ cs') by (rewrite Hrest; exact Hcs).
    simpl with_commas. rewrite !string_app_assoc. reflexivity.
Qed.

Lemma cells_length (fields : list Unpack.field) (data : odict) :
  forall cs : list string,
    cells fields data = Ok cs ->
    (length data <= length fields)%nat /\ length cs = length data.
Proof.
  revert fields. induction data as [|[key v] data IH]; intros fields cs H; simpl in H.
  - injection H as <-. simpl. split; [lia | reflexivity].
  - destruct fields as [|f fields]; [discriminate|].
    destruct (format_value (Unpack.type f) v); [|discriminate].
    destruct (cells fields data) as [cs'|] eqn:Hcs; [|discriminate].
    injection H as <-. destruct (IH _ _ Hcs). simpl. split; lia.
Qed.

(** *** Rows written *)

(** The text written by a first call. *)
Lemma log_first_row (st : logger) (data : odict) (packet_type : string)
    (x : output_packet) (content : string) (cs : list string) :
  first_row st !! packet_type = Some 0 ->
  log_files st !! packet_type = Some content ->
  find_packet packet_type = Some x ->
  cells (op_payload x) data = Ok cs ->
  log st data packet_type
  = (write (with_first_row st packet_type 1) packet_type content
       (header_row (op_payload x) (length data) ++ data_row cs)%string,
     Ok tt).
Proof.
  intros Hrow Hfile Hfind Hcells. unfold log. rewrite Hrow, Hfind.
  change (0 =? 0) with true. cbv iota.
  destruct (cells_length _ _ _ Hcells) as [Hlen _].
  rewrite (labels_loop_spec x data 0 "") by (rewrite drop_0; exact Hlen).
  rewrite (line_loop_spec x data 0 "" cs) by (rewrite drop_0; exact Hcells).
  rewrite drop_0. simpl log_files. rewrite Hfile.
  rewrite !string_app_nil_l.
  rewrite !drop_last_with_commas. reflexivity.
Qed.

(** The text written by a later call. *)
Lemma log_next_row (st : logger) (data : odict) (packet_type : string)
    (x : output_packet) (content : string) (cs : list string) (n : Z) :
  first_row st !! packet_type = Some n ->
  n <> 0 ->
  log_files st !! packet_type = Some content ->
  find_packet packet_type = Some x ->
  cells (op_payload x) data = Ok cs ->
  log st data packet_type
  = (write (with_first_row st packet_type (n + 1)) packet_type content (data_row cs),
     Ok tt).
Proof.
  intros Hrow Hn Hfile Hfind Hcells. unfold log. rewrite Hrow, Hfind.
  destruct (Z.eqb_spec n 0); [contradiction|].
  rewrite (line_loop_spec x data 0 "" cs) by (rewrite drop_0; exact Hcells).
  simpl log_files. rewrite Hfile.
  rewrite !string_app_nil_l.
  rewrite drop_last_with_commas. reflexivity.
Qed.

(** The first call for a packet type writes the header row, made of the
    catalog names of as many fields as the packet has, and one data row
    whose cells are formatted by the declared types. *)
Theorem log_first_call (st : logger) (data : odict) (packet_type : string)
    (x : output_packet) (content : string) (cs : list string) :
  first_row st !! packet_type = Some 0 ->
  log_files st !! packet_type = Some content ->
  find_packet packet_type = Some x ->
  cells (op_payload x) data = Ok cs ->
  log st data packet_type
  = (write (with_first_row st packet_type 1) packet_type content
       (header_row (op_payload x) (length data) ++ data_row cs)%string,
     Ok tt).
Proof. apply log_first_row. Qed.

(** Every later call writes one data row and no header. *)
Theorem log_later_call (st : logger) (data : odict) (packet_type : string)
    (x : output_packet) (content : string) (cs : list string) (n : Z) :
  first_row st !! packet_type = Some n ->
  n <> 0 ->
  log_files st !! packet_type = Some content ->
  find_packet packet_type = Some x ->
  cells (op_payload x) data = Ok cs ->
  log st data packet_type
  = (write (with_first_row st packet_type (n + 1)) packet_type content (data_row cs),
     Ok tt).
Proof. apply log_next_row. Qed.

(** Two packets of one type in a row: the file receives the header once,
    before the first data row, and then the two data rows. *)
Theorem log_two_packets (st : logger) (data1 data2 : odict) (packet_type : string)
    (x : output_packet) (content : string) (cs1 cs2 : list string) :
  first_row st !! packet_type = Some 0 ->
  log_files st !! packet_type = Some content ->
  find_packet packet_type = Some x ->
  cells (op_payload x) data1 = Ok cs1 ->
  cells (op_payload x) data2 = Ok cs2 ->
  let '(st1, r1) := log st data1 packet_type in
  let '(st2, r2) := log st1 data2 packet_type in
  r1 = Ok tt /\ r2 = Ok tt
  /\ log_files st2 !! packet_type
     = Some (content ++ header_row (op_payload x) (length data1)
                     ++ data_row cs1 ++ data_row cs2)%string
  /\ first_row st2 !! packet_type = Some 2.
Proof.
  intros Hrow Hfile Hfind Hc1 Hc2.
  rewrite (log_first_row st data1 packet_type x content cs1 Hrow Hfile Hfind Hc1).
  rewrite (log_next_row _ data2 packet_type x
             (content ++ header_row (op_payload x) (length data1) ++ data_row cs1)%string
             cs2 1);
    try assumption; try discriminate;
    try (simpl; apply lookup_insert_eq).
  repeat split; simpl.
  - rewrite lookup_insert_eq, !string_app_assoc. reflexivity.
  - rewrite lookup_insert_eq. reflexivity.
Qed.

(** A first call whose packet has more fields than the catalog entry
    fails on the header, after the row counter has been set: nothing is
    written, and no later call writes the header. *)
Theorem log_header_lost (st : logger) (data : odict) (packet_type : string)
    (x : output_packet) :
  first_row st !! packet_type = Some 0 ->
  find_packet packet_type = Some x ->
  (length (op_payload x) < length data)%nat ->
  log st data packet_type = (with_first_row st packet_type 1, Raise IndexError)
  /\ first_row (fst (log st data packet_type)) !! packet_type = Some 1
  /\ log_files (fst (log st data packet_type)) = log_files st.
Proof.
  intros Hrow Hfind Hlen.
  assert (H : log st data packet_type
              = (with_first_row st packet_type 1, Raise IndexError)).
  { unfold log. rewrite Hrow, Hfind. change (0 =? 0) with true. cbv iota.
    rewrite labels_loop_overrun by (rewrite drop_0; exact Hlen). reflexivity. }
  rewrite H. repeat split. simpl. apply lookup_insert_eq.
Qed.

End WithFormat.

(** *** Concrete runs *)

(** A catalog of one packet and a formatter that knows integers, to run
    the logger on concrete packets. *)
Definition sample_catalog : list output_packet :=
  [mk_output_packet "KFN" Unpack.sample_fields].

Definition sample_format (spec : string) (v : pyval) : result string :=
  match v with
  | PInt z =>
      if String.eqb spec "d" then Ok (NilZero.string_of_int (Z.to_int z))
      else Raise (ValueError "format")
  | _ => Raise (ValueError "format")
  end.

Definition sample_logger : logger :=
  mk_logger {["KFN"%string := 0]} {["KFN"%string := EmptyString]}.

Definition sample_data1 : odict :=
  [("System time", PInt 10000); ("Height", PInt (-2)); ("Mode", PInt 6)]%string.

Definition sample_data2 : odict :=
  [("System time", PInt 10001); ("Height", PInt (-3)); ("Mode", PInt 6)]%string.

Definition sample_log := log sample_catalog sample_format.

Lemma log_first_call_witness :
  log_files (fst (sample_log sample_logger sample_data1 "KFN")) !! "KFN"%string
  = Some ("System time,Height,Mode" ++ newline ++ "10000,-2,6" ++ newline)%string
  /\ snd (sample_log sample_logger sample_data1 "KFN") = Ok tt.
Proof.
  unfold sample_log.
  rewrite (log_first_call sample_catalog sample_format sample_logger sample_data1
             "KFN" (mk_output_packet "KFN" Unpack.sample_fields) EmptyString
             ["10000"; "-2"; "6"]%string);
    try reflexivity.
  split; [vm_compute|]; reflexivity.
Defined.

Lemma log_later_call_witness :
  sample_log (mk_logger {["KFN"%string := 3]} {["KFN"%string := "h"%string]})
    sample_data2 "KFN"
  = (mk_logger (<["KFN"%string := 4]> {["KFN"%string := 3]})
       (<["KFN"%string := ("h" ++ "10001,-3,6" ++ newline)%string]>
          {["KFN"%string := "h"%string]}),
     Ok tt).
Proof.
  unfold sample_log.
  rewrite (log_later_call sample_catalog sample_format _ sample_data2
             "KFN" (mk_output_packet "KFN" Unpack.sample_fields) "h"
             ["10001"; "-3"; "6"]%string 3);
    try reflexivity; try discriminate.
Defined.

Lemma log_two_packets_witness :
  log_files (fst (sample_log (fst (sample_log sample_logger sample_data1 "KFN"))
                             sample_data2 "KFN")) !! "KFN"%string
  = Some ("System time,Height,Mode" ++ newline ++ "10000,-2,6" ++ newline
            ++ "10001,-3,6" ++ newline)%string.
Proof.
  unfold sample_log.
  pose proof (log_two_packets sample_catalog sample_format sample_logger
                sample_data1 sample_data2 "KFN"
                (mk_output_packet "KFN" Unpack.sample_fields) EmptyString
                ["10000"; "-2"; "6"]%string ["10001"; "-3"; "6"]%string
                eq_refl eq_refl eq_refl eq_refl eq_refl) as H.
  destruct (log sample_catalog sample_format sample_logger sample_data1 "KFN")
    as [st1 r1].
  cbn [fst].
  destruct (log sample_catalog sample_format st1 sample_data2 "KFN") as [st2 r2].
  destruct H as (_ & _ & H & _). cbn [fst].
  etransitivity; [exact H|]. vm_compute. reflexivity.
Defined.

Lemma log_header_lost_witness :
  sample_log sample_logger (sample_data1 ++ [("Extra"%string, PInt 0)]) "KFN"
  = (with_first_row sample_logger "KFN" 1, Raise IndexError).
Proof.
  apply (log_header_lost sample_catalog sample_format sample_logger
           (sample_data1 ++ [("Extra"%string, PInt 0)]) "KFN"
           (mk_output_packet "KFN" Unpack.sample_fields)).
  - reflexivity.
  - reflexivity.
  - simpl. lia.
Defined.

End CsvLog.
